(** * Client scripts of the Shopify integration: a shallow embedding

    Three independent form and list-view scripts are embedded here:

    - the [Item] list view script: the "Batch Update Price" dialog, its
      primary action and its realtime progress [handler];
    - the [Sales Order] form script: the [shopify_coupon_code] field handler
      and the callback of its percent-value lookup;
    - the [Shopify Coupon Code] form script: the "Update Coupon" button and
      the callback of its remote call.

    JavaScript numbers are IEEE 754 binary64 values and are embedded as the
    kernel's primitive floats, so that [Math.round((progress / total) * 100)]
    is computed bit for bit as the script computes it.  Mutable objects (the
    dialog, the closure variable [messages], the realtime listener table, the
    form document) are embedded by explicit state passing. *)

From Stdlib Require Import ZArith Floats String Ascii List Bool.
From stdpp Require Import base option list gmap strings.

(** ** JavaScript values *)

Module JS.

(** Truthiness ([ToBoolean]) of the two primitive types the scripts test. *)
Class Truthy (A : Type) := truthy : A -> bool.

(** A number is falsy when it is [+0], [-0] or [NaN]. *)
#[export] Instance float_truthy : Truthy float :=
  fun x => negb (PrimFloat.eqb x 0 || PrimFloat.is_nan x).

(** A string is falsy when it is empty. *)
#[export] Instance string_truthy : Truthy string :=
  fun s => negb (String.eqb s "").

(** A property read [o.f] is [None] when it yields [undefined] or [null].
    [v || d] keeps a truthy [v] and gives [d] otherwise. *)
Definition or_default {A : Type} `{Truthy A} (v : option A) (d : A) : A :=
  match v with
  | Some x => if truthy x then x else d
  | None => d
  end.

(** [if (v)] on a property read. *)
Definition is_truthy {A : Type} `{Truthy A} (v : option A) : bool :=
  match v with
  | Some x => truthy x
  | None => false
  end.

(** [a >= b] on numbers: false as soon as one side is [NaN]. *)
Definition ge (a b : float) : bool := PrimFloat.leb b a.

(** The float of an integer of magnitude at most [2^53]. *)
Definition of_Z (k : Z) : float :=
  let a := PrimFloat.of_uint63 (Uint63.of_Z (Z.abs k)) in
  if (k <? 0)%Z then PrimFloat.opp a else a.

(** [Math.round]: the integer nearest to [x], a tie going towards [+∞];
    [NaN], the infinities, the zeros and the integers are returned as they
    are, and a result of zero keeps the sign of [x].  A finite [x] is
    [±m·2^e]; when [e < 0] the result is [floor (x + 1/2)], computed exactly
    on integers. *)
Definition Math_round (x : float) : float :=
  match Prim2SF x with
  | S754_finite s m e =>
      if (0 <=? e)%Z then x
      else
        let k := (((if s then Z.neg m else Z.pos m) * 2 + 2 ^ (- e))
                    / 2 ^ (1 - e))%Z in
        if (k =? 0)%Z then (if s then (-0)%float else 0%float) else of_Z k
  | _ => x
  end.

(** [a.join(sep)] on an array of strings. *)
Definition join (sep : string) (a : list string) : string :=
  String.concat sep a.

End JS.

Export JS.

Notation "v ||| d" := (or_default v d) (at level 50, left associativity).

(** ** The host: language runtime and framework utilities

    The scripts call into the browser and the framework for a few pure
    string functions whose code is not part of the scripts.  They are taken
    as parameters. *)

Class Host := {
  (** [__(text)]: the framework's translation of a source text. *)
  __ : string -> string;
  (** [frappe.utils.escape_html]. *)
  escape_html : string -> string;
  (** [String.prototype.toUpperCase]. *)
  toUpperCase : string -> string;
  (** The string a number turns into inside a template literal. *)
  Number_toString : float -> string;
}.

(** A remote call handed to [frappe.call]. *)
Record call := Call {
  method : string;
  args : list (string * string);
  freeze : bool;
}.

(** The argument of [frappe.msgprint]: a text, or an options object. *)
Inductive msgprint_arg :=
| msg_text (text : string)
| msg_opts (title message indicator : string).

(** The line feed and the double quote, as one-character strings. *)
Definition nl : string := String "010"%char EmptyString.
Definition dq : string := String "034"%char EmptyString.

(** ** The realtime channel

    Modelled from the spec: the framework's realtime publish/subscribe
    channel ([frappe.realtime.on] and [frappe.realtime.off]), whose code is
    not part of the scripts.  It keeps, for every topic, the listeners in the
    order they were registered; [off] takes out the first registration of
    the given listener, and a topic left without listeners is dropped.  A
    listener is named by a number. *)

Module Realtime.

Definition listeners (t : string) (rt : gmap string (list nat)) : list nat :=
  default [] (rt !! t).

Definition on (t : string) (h : nat) (rt : gmap string (list nat))
  : gmap string (list nat) :=
  <[t := listeners t rt ++ [h]]> rt.

Fixpoint remove_first (h : nat) (l : list nat) : list nat :=
  match l with
  | [] => []
  | x :: l' => if decide (x = h) then l' else x :: remove_first h l'
  end.

Definition off (t : string) (h : nat) (rt : gmap string (list nat))
  : gmap string (list nat) :=
  match rt !! t with
  | None => rt
  | Some l =>
      match remove_first h l with
      | [] => delete t rt
      | l' => <[t := l']> rt
      end
  end.

End Realtime.

(** ** The Item list view: the "Batch Update Price" dialog *)

Module ItemList.

(** The progress payload the server publishes; a field that is missing,
    [undefined] or [null] is [None]. *)
Record payload := Payload {
  total : option float;
  progress : option float;
  current : option string;
  status : option string;
  result : option string;
  message : option string;
}.

(** One dialog [d] with what its closures capture: the value of its [csv]
    field, the content of the [progress_html] wrapper, whether it is shown,
    and the array [messages]. *)
Record dialog := Dialog {
  csv : option string;
  progress_html : string;
  shown : bool;
  messages : list string;
}.

(** The page: every dialog opened so far (the [handler] of dialog [i] is
    listener [i]), the realtime listener table, the remote calls made and
    the messages printed. *)
Record page := Page {
  dialogs : list dialog;
  realtime : gmap string (list nat);
  calls : list call;
  msgprints : list msgprint_arg;
}.

Definition topic : string := "shopify_price_batch".

Definition batch_update_prices_from_csv : string :=
  "ecommerce_integrations.shopify.product.batch_update_prices_from_csv".

Section Script.
Context `{Host}.

(** [primary_action] of the dialog: the remote calls after it has run. *)
Definition primary_action (d : dialog) (cs : list call) : list call :=
  match d.(csv) with
  | Some csv =>
      if negb (truthy csv) then cs
      else cs ++ [ {| method := batch_update_prices_from_csv;
                      args := [("csv", csv)];
                      freeze := true |} ]
  | None => cs
  end.

(** The callback of that call. *)
Definition callback (ms : list msgprint_arg) : list msgprint_arg :=
  ms ++ [msg_text (__ "Batch update started. Progress will be shown here.")].

(** The template literal bound to [html] in [handler]. *)
Definition html_template (progress total : float) (current status : string)
    (pct : float) (messages : list string) : string :=
  nl +:+ "+                    <div style=" +:+ dq +:+ "margin: 10px 0;" +:+ dq +:+ ">" +:+
  nl +:+ "+                        <div><strong>" +:+ Number_toString progress +:+ "/" +:+
         Number_toString total +:+ "</strong> — " +:+ escape_html current +:+ " — " +:+
         status +:+ "</div>" +:+
  nl +:+ "+                        <div style=" +:+ dq +:+
         "background:#f1f1f1;border-radius:3px;height:10px;width:100%;margin-top:6px;" +:+
         dq +:+ ">" +:+
  nl +:+ "+                            <div style=" +:+ dq +:+ "width:" +:+
         Number_toString pct +:+ "%;background:#5b8ef8;height:100%;border-radius:3px" +:+
         dq +:+ "></div>" +:+
  nl +:+ "+                        </div>" +:+
  nl +:+ "+                        <div style=" +:+ dq +:+
         "margin-top:8px;max-height:200px;overflow:auto;padding:6px;background:#fff;border:1px solid #eee;border-radius:4px" +:+
         dq +:+ ">" +:+ join "<br>" messages +:+ "</div>" +:+
  nl +:+ "+                    </div>".

(** The constant [pct] of [handler]. *)
Definition pct (total progress : float) : float :=
  if truthy total then Math_round ((progress / total) * 100)%float
  else 0%float.

(** The realtime listener of dialog [d], registered as listener [h]: the
    dialog and the listener table after it has run on [data]. *)
Definition handler (h : nat) (data : option payload) (d : dialog)
    (rt : gmap string (list nat)) : dialog * gmap string (list nat) :=
  match data with
  | None => (d, rt)
  | Some data =>
      let total := data.(total) ||| 0%float in
      let progress := data.(progress) ||| 0%float in
      let current := data.(current) ||| "" in
      let status := data.(status) ||| "" in
      let result := data.(result) ||| "" in
      let message := data.(message) ||| "" in
      let messages :=
        if truthy message
        then d.(messages) ++ [toUpperCase result +:+ ": " +:+ escape_html message]
        else d.(messages) in
      let pct := pct total progress in
      let html := html_template progress total current status pct messages in
      let d := Dialog d.(csv) html d.(shown) messages in
      if String.eqb status "done" || ge progress total
      then (d, Realtime.off topic h rt)
      else (d, rt)
  end.

(** The test that ends [handler], on the event it received: whether the
    listener takes itself off the channel. *)
Definition completes (data : option payload) : bool :=
  match data with
  | None => false
  | Some data =>
      String.eqb (data.(status) ||| "") "done"
      || ge (data.(progress) ||| 0%float) (data.(total) ||| 0%float)
  end.

(** *** The page as a transition system

    Modelled from the spec: the framework's event loop, which runs one
    callback of the script at a time and to its end (single-threaded,
    cooperative, event-driven). *)

(** What can happen on the page: the button is clicked, the user edits the
    [csv] field of dialog [i] or presses its primary button, the server
    answers a batch call, a realtime event arrives, dialog [i] is closed. *)
Inductive event :=
| click_batch_update_price
| input_csv (i : nat) (v : option string)
| click_start (i : nat)
| call_returned
| publish (t : string) (data : option payload)
| hide (i : nat).

(** The page before the button has been clicked. *)
Definition init : page := Page [] ∅ [] [].

(** The click handler of the button: a new dialog is built and shown, its
    [messages] array is empty, and its [handler] is registered. *)
Definition on_click (w : page) : page :=
  let i := length w.(dialogs) in
  Page (w.(dialogs) ++ [Dialog None "" true []])
       (Realtime.on topic i w.(realtime))
       w.(calls) w.(msgprints).

(** Listener [h] of the topic is run on [data]. *)
Definition deliver (data : option payload) (w : page) (h : nat) : page :=
  match w.(dialogs) !! h with
  | Some d =>
      let '(d', rt') := handler h data d w.(realtime) in
      Page (<[h := d']> w.(dialogs)) rt' w.(calls) w.(msgprints)
  | None => w
  end.

(** An event published on [t] reaches the listeners registered on [t] when
    it arrives, in registration order.  The listeners of other topics belong
    to other scripts and do not touch the page. *)
Definition emit (t : string) (data : option payload) (w : page) : page :=
  if String.eqb t topic
  then foldl (deliver data) w (Realtime.listeners topic w.(realtime))
  else w.

(** [d.onhide]. *)
Definition onhide (h : nat) (rt : gmap string (list nat))
  : gmap string (list nat) :=
  Realtime.off topic h rt.

Definition step (w : page) (e : event) : page :=
  match e with
  | click_batch_update_price => on_click w
  | input_csv i v =>
      match w.(dialogs) !! i with
      | Some d =>
          Page (<[i := Dialog v d.(progress_html) d.(shown) d.(messages)]> w.(dialogs))
               w.(realtime) w.(calls) w.(msgprints)
      | None => w
      end
  | click_start i =>
      match w.(dialogs) !! i with
      | Some d => Page w.(dialogs) w.(realtime) (primary_action d w.(calls)) w.(msgprints)
      | None => w
      end
  | call_returned =>
      Page w.(dialogs) w.(realtime) w.(calls) (callback w.(msgprints))
  | publish t data => emit t data w
  | hide i =>
      match w.(dialogs) !! i with
      | Some d =>
          Page (<[i := Dialog d.(csv) d.(progress_html) false d.(messages)]> w.(dialogs))
               (onhide i w.(realtime)) w.(calls) w.(msgprints)
      | None => w
      end
  end.

Definition run (w : page) (es : list event) : page := foldl step w es.

End Script.

End ItemList.

(** ** The Sales Order form *)

Module SalesOrder.

(** The two fields of [frm.doc] the script reads and writes. *)
Module Doc.
Record t := Make {
  shopify_coupon_code : option string;
  additional_discount_percentage : float;
}.
End Doc.

(** [r.message] of the percent-value lookup, when it is truthy; a truthy
    value that is not an object has no [percent_value]. *)
Record message := Message {
  percent_value : option float;
}.

(** The response [r]; a [message] that is missing or falsy is [None]. *)
Record response := Response {
  r_message : option message;
}.

(** The form [frm]: its document, the link queries set on its fields and
    the remote calls made from it. *)
Record form := Form {
  doc : Doc.t;
  queries : gmap string (list (string * string));
  calls : list call;
}.

Definition get_shopify_coupon_code_percent_value : string :=
  "ecommerce_integrations.shopify.coupon.get_shopify_coupon_code_percent_value".

(** [frm.set_value('additional_discount_percentage', v)]. *)
Definition set_value_additional_discount_percentage (v : float) (frm : form)
  : form :=
  Form (Doc.Make frm.(doc).(Doc.shopify_coupon_code) v) frm.(queries) frm.(calls).

Definition onload (frm : form) : form :=
  Form frm.(doc)
       (<["shopify_coupon_code" := [("status", "Active")]]> frm.(queries))
       frm.(calls).

(** The handler of the field [shopify_coupon_code]. *)
Definition shopify_coupon_code (frm : form) : form :=
  match frm.(doc).(Doc.shopify_coupon_code) with
  | Some code =>
      if truthy code
      then Form frm.(doc) frm.(queries)
             (frm.(calls) ++ [ {| method := get_shopify_coupon_code_percent_value;
                                  args := [("coupon_code", code)];
                                  freeze := false |} ])
      else set_value_additional_discount_percentage 0 frm
  | None => set_value_additional_discount_percentage 0 frm
  end.

(** The callback of the lookup. *)
Definition callback (r : response) (frm : form) : form :=
  match r.(r_message) with
  | Some m =>
      set_value_additional_discount_percentage (m.(percent_value) ||| 0%float) frm
  | None => frm
  end.

(** The user (or a script) gives the field a value: the document is
    updated and the field's handler runs. *)
Definition set_coupon_code (v : option string) (frm : form) : form :=
  shopify_coupon_code
    (Form (Doc.Make v frm.(doc).(Doc.additional_discount_percentage))
          frm.(queries) frm.(calls)).

End SalesOrder.

(** ** The Shopify Coupon Code form *)

Module ShopifyCouponCode.

(** [r.message] of the update call, when it is truthy; a truthy value that
    is not an object has neither field. *)
Record message := Message {
  status : option string;
  error : option string;
}.

(** The response [r]; a [message] that is missing or falsy is [None]. *)
Record response := Response {
  r_message : option message;
}.

(** The form [frm]: the name of its document, its custom buttons, the
    remote calls made from it and the messages printed. *)
Record form := Form {
  name : string;
  custom_buttons : list string;
  calls : list call;
  msgprints : list msgprint_arg;
}.

Definition update_shopify_coupon_code : string :=
  "ecommerce_integrations.shopify.coupon.update_shopify_coupon_code".

Section Script.
Context `{Host}.

Definition refresh (frm : form) : form :=
  Form frm.(name) (frm.(custom_buttons) ++ [__ "Update Coupon"])
       frm.(calls) frm.(msgprints).

(** The click handler of the button. *)
Definition update_coupon (frm : form) : form :=
  Form frm.(name) frm.(custom_buttons)
       (frm.(calls) ++ [ {| method := update_shopify_coupon_code;
                            args := [("coupon_code_name", frm.(name))];
                            freeze := true |} ])
       frm.(msgprints).

(** [r.message && r.message.status === "success"]. *)
Definition succeeded (r : response) : bool :=
  match r.(r_message) with
  | Some m =>
      match m.(status) with
      | Some s => String.eqb s "success"
      | None => false
      end
  | None => false
  end.

(** [r.message && r.message.error ? r.message.error : __("Failed to update coupons.")]. *)
Definition error_text (r : response) : string :=
  match r.(r_message) with
  | Some m =>
      match m.(error) with
      | Some e => if truthy e then e else __ "Failed to update coupons."
      | None => __ "Failed to update coupons."
      end
  | None => __ "Failed to update coupons."
  end.

(** The callback of the update call. *)
Definition callback (r : response) (frm : form) : form :=
  Form frm.(name) frm.(custom_buttons) frm.(calls)
       (frm.(msgprints) ++
          [ if succeeded r
            then msg_text (__ "Coupon updated.")
            else msg_opts (__ "Error") (error_text r) "red" ]).

End Script.

End ShopifyCouponCode.

(** A host for running the scripts on concrete inputs: nothing is
    translated, escaped or put in upper case, and every number prints as
    ["#"]. *)
Definition plain_host : Host :=
  {| __ := fun s => s;
     escape_html := fun s => s;
     toUpperCase := fun s => s;
     Number_toString := fun _ => "#" |}.

(** ** Vocabulary of the properties *)

(** The progress document of a dialog shows its messages: it holds them
    all, in the order of the array, joined by [<br>]. *)
Definition shows_messages (d : ItemList.dialog) : Prop :=
  exists pre post : string,
    d.(ItemList.progress_html) =
      pre +:+ join "<br>" d.(ItemList.messages) +:+ post.

(** Every listener of the progress topic is the handler of a dialog of the
    page. *)
Definition listeners_have_dialogs (w : ItemList.page) : Prop :=
  forall i : nat,
    i ∈ Realtime.listeners ItemList.topic w.(ItemList.realtime) ->
    i < length w.(ItemList.dialogs).

(** A field is absent or zero. *)
Definition absent_or_zero (v : option float) : Prop :=
  v = None \/ exists x : float, v = Some x /\ PrimFloat.eqb x 0 = true.

(** The handlers on the progress topic are distinct, and each is the
    handler of a dialog of the page. *)
Definition well_registered (w : ItemList.page) : Prop :=
  NoDup (Realtime.listeners ItemList.topic w.(ItemList.realtime))
  /\ listeners_have_dialogs w.

(** An entry of [messages] as [handler] builds it: the result in upper
    case, a colon, and the escaped text of a non-empty message. *)
Definition built_entry `{Host} (e : string) : Prop :=
  exists r m : string,
    m <> "" /\ e = toUpperCase r +:+ ": " +:+ escape_html m.

(** * Properties *)

(** ** Numbers *)

Section Numbers.

Lemma Prim2SF_zero : Prim2SF 0 = S754_zero false.
Proof. reflexivity. Qed.

(** A number compared with zero, read on its specification. *)
Lemma eqb_zero_spec (x : float) :
  PrimFloat.eqb x 0 = SFeqb (Prim2SF x) (S754_zero false).
Proof. rewrite FloatAxioms.eqb_spec. reflexivity. Qed.

Lemma is_nan_spec (x : float) :
  PrimFloat.is_nan x = negb (SFeqb (Prim2SF x) (Prim2SF x)).
Proof. unfold PrimFloat.is_nan. rewrite FloatAxioms.eqb_spec. reflexivity. Qed.

Lemma SFeqb_finite_refl (s : bool) (m : positive) (e : Z) :
  SFeqb (S754_finite s m e) (S754_finite s m e) = true.
Proof.
  unfold SFeqb, SFcompare.
  rewrite Z.compare_refl, Pos.compare_cont_refl. destruct s; reflexivity.
Qed.

(** The three ways a number can be truthy or falsy. *)
Lemma truthy_pos (x : float) : PrimFloat.ltb 0 x = true -> truthy x = true.
Proof.
  unfold truthy, float_truthy.
  rewrite FloatAxioms.ltb_spec, eqb_zero_spec, is_nan_spec, Prim2SF_zero.
  destruct (Prim2SF x) as [s|s| |s m e]; try discriminate.
  - destruct s; [discriminate | reflexivity].
  - rewrite SFeqb_finite_refl. destruct s; [discriminate | reflexivity].
Qed.

Lemma truthy_neg (x : float) : PrimFloat.ltb x 0 = true -> truthy x = true.
Proof.
  unfold truthy, float_truthy.
  rewrite FloatAxioms.ltb_spec, eqb_zero_spec, is_nan_spec, Prim2SF_zero.
  destruct (Prim2SF x) as [s|s| |s m e]; try discriminate.
  - destruct s; [reflexivity | discriminate].
  - rewrite SFeqb_finite_refl. destruct s; [reflexivity | discriminate].
Qed.

Lemma truthy_zero (x : float) : PrimFloat.eqb x 0 = true -> truthy x = false.
Proof. unfold truthy, float_truthy. intros ->. reflexivity. Qed.

(** A number that is not [NaN] is positive, negative or zero. *)
Lemma not_nan_trichotomy (x : float) :
  PrimFloat.is_nan x = false ->
  PrimFloat.ltb 0 x || PrimFloat.ltb x 0 || PrimFloat.eqb x 0 = true.
Proof.
  rewrite !FloatAxioms.ltb_spec, eqb_zero_spec, is_nan_spec, Prim2SF_zero.
  destruct (Prim2SF x) as [s|s| |s m e]; try discriminate;
    intros _; destruct s; reflexivity.
Qed.

(** [v || 0] is never [NaN]. *)
Lemma or_default_zero_not_nan (v : option float) :
  PrimFloat.is_nan (v ||| 0%float) = false.
Proof.
  destruct v as [x|]; [|reflexivity]. unfold or_default.
  destruct (truthy x) eqn:E; [|reflexivity].
  unfold truthy, float_truthy in E.
  apply negb_true_iff, orb_false_iff in E. apply E.
Qed.

(** [v || 0] is truthy exactly when it is not zero. *)
Lemma truthy_or_default_zero (v : option float) :
  truthy (v ||| 0%float) = negb (PrimFloat.eqb (v ||| 0%float) 0).
Proof.
  unfold truthy at 1, float_truthy.
  now rewrite or_default_zero_not_nan, orb_false_r.
Qed.

(** A field that is absent or falsy defaults to [+0]. *)
Lemma or_default_falsy (v : option float) :
  is_truthy v = false -> v ||| 0%float = 0%float.
Proof.
  destruct v as [x|]; [|reflexivity]. unfold is_truthy, or_default.
  intros ->. reflexivity.
Qed.

End Numbers.

(** [Math.round] on a few values: a tie goes up, also below zero, and a
    value in [[-0.5, -0]] gives [-0]. *)
Example Math_round_tie : Math_round 2.5 = 3%float.
Proof. reflexivity. Qed.

Example Math_round_negative_tie : Math_round (-2.5) = (-2)%float.
Proof. reflexivity. Qed.

Example Math_round_minus_half :
  Prim2SF (Math_round (-0.5)) = S754_zero true.
Proof. reflexivity. Qed.

(** The percentage is computed on doubles: [(29 / 200) * 100] is
    [14.499999999999998], which rounds to 14. *)
Example pct_29_of_200 : ItemList.pct 200 29 = 14%float.
Proof. reflexivity. Qed.

Example pct_without_total : ItemList.pct 0 7 = 0%float.
Proof. reflexivity. Qed.

(** ** Strings *)

Lemma string_app_assoc (a b c : string) : (a +:+ b) +:+ c = a +:+ b +:+ c.
Proof.
  induction a as [|x a IH]; [reflexivity|].
  change (String x ((a +:+ b) +:+ c) = String x (a +:+ b +:+ c)).
  f_equal. exact IH.
Qed.

Lemma string_truthy_nonempty (s : string) : s <> "" -> truthy s = true.
Proof.
  intros E. unfold truthy, string_truthy.
  apply negb_true_iff, String.eqb_neq, E.
Qed.

(** ** The progress handler on one event *)

Section Handler.
Import ItemList.
Context `{Host}.

(** What [handler] does on an event that carries a payload, step by step:
    the entry pushed, the document written and the listener table. *)
Lemma handler_payload (h : nat) (data : payload) (d : dialog)
    (rt : gmap string (list nat)) :
  let total := data.(total) ||| 0%float in
  let progress := data.(progress) ||| 0%float in
  let entries :=
    if truthy (data.(message) ||| "")
    then d.(messages) ++ [toUpperCase (data.(result) ||| "") +:+ ": "
                            +:+ escape_html (data.(message) ||| "")]
    else d.(messages) in
  handler h (Some data) d rt =
    (Dialog d.(csv)
            (html_template progress total (data.(current) ||| "")
               (data.(status) ||| "") (pct total progress) entries)
            d.(shown) entries,
     if completes (Some data) then Realtime.off topic h rt else rt).
Proof.
  unfold handler, completes. cbv zeta.
  destruct (_ || _); reflexivity.
Qed.

(** C1, amended.  On every progress event the handler writes the template
    filled with the percentage [pct total progress], where [total] and
    [progress] are the event's fields defaulted to 0.  That percentage is
    [Math.round((progress / total) * 100)] when the defaulted total is
    positive and also when it is negative, and it is 0 when the defaulted
    total is zero, which is the case whenever the field is absent, zero or
    [NaN]; a defaulted total is always one of the three. *)
Theorem handler_displays_percentage (h : nat) (data : payload) (d : dialog)
    (rt : gmap string (list nat)) :
  let total := data.(total) ||| 0%float in
  let progress := data.(progress) ||| 0%float in
  let d' := (handler h (Some data) d rt).1 in
  d'.(progress_html) =
    html_template progress total (data.(current) ||| "") (data.(status) ||| "")
      (pct total progress) d'.(messages)
  /\ (PrimFloat.ltb 0 total = true ->
      pct total progress = Math_round ((progress / total) * 100)%float)
  /\ (PrimFloat.ltb total 0 = true ->
      pct total progress = Math_round ((progress / total) * 100)%float)
  /\ (PrimFloat.eqb total 0 = true -> pct total progress = 0%float)
  /\ (is_truthy data.(ItemList.total) = false ->
      total = 0%float /\ pct total progress = 0%float)
  /\ PrimFloat.ltb 0 total || PrimFloat.ltb total 0 || PrimFloat.eqb total 0
     = true.
Proof.
  intros total progress d'. subst d'. rewrite handler_payload. cbn [fst].
  fold total progress. split; [reflexivity|]. unfold pct.
  split; [intros E; now rewrite (truthy_pos _ E)|].
  split; [intros E; now rewrite (truthy_neg _ E)|].
  split; [intros E; now rewrite (truthy_zero _ E)|].
  split.
  - intros E. subst total. rewrite (or_default_falsy _ E). split; reflexivity.
  - apply not_nan_trichotomy, or_default_zero_not_nan.
Qed.

End Handler.

Lemma handler_displays_percentage_witness :
  ItemList.pct 4 1 = Math_round ((1 / 4) * 100)%float.
Proof.
  apply (proj1 (proj2 (@handler_displays_percentage plain_host 0
           (ItemList.Payload (Some 4%float) (Some 1%float) None None None None)
           (ItemList.Dialog None "" true []) ∅))).
  reflexivity.
Defined.

(** C1 as stated fails: for the event [{total: -4, progress: 1}] the total
    is not greater than 0, yet the percentage is [-25] and not 0. *)
Lemma percentage_of_negative_total :
  let data := ItemList.Payload (Some (-4)%float) (Some 1%float) None None None None in
  let total := data.(ItemList.total) ||| 0%float in
  let progress := data.(ItemList.progress) ||| 0%float in
  ~ (ItemList.pct total progress =
       if PrimFloat.ltb 0 total then Math_round ((progress / total) * 100)%float
       else 0%float).
Proof.
  intros data total progress E.
  apply (f_equal (fun x => PrimFloat.eqb x 0)) in E.
  vm_compute in E. discriminate E.
Qed.

(** ** The realtime channel *)

Section RealtimeFacts.
Import Realtime.

Lemma listeners_on (t : string) (h : nat) (rt : gmap string (list nat)) :
  listeners t (on t h rt) = listeners t rt ++ [h].
Proof. unfold on, listeners at 1. now rewrite lookup_insert_eq. Qed.

Lemma listeners_off (t : string) (h : nat) (rt : gmap string (list nat)) :
  listeners t (off t h rt) = remove_first h (listeners t rt).
Proof.
  unfold off, listeners. destruct (rt !! t) as [l|] eqn:E; cbn [default].
  - destruct (remove_first h l) as [|x l'] eqn:R.
    + now rewrite lookup_delete_eq.
    + now rewrite lookup_insert_eq.
  - now rewrite E.
Qed.

Lemma remove_first_head (h : nat) (l : list nat) :
  remove_first h (h :: l) = l.
Proof. cbn. now rewrite decide_True. Qed.

Lemma elem_of_remove_first (i h : nat) (l : list nat) :
  i ∈ remove_first h l -> i ∈ l.
Proof.
  induction l as [|x l IH]; cbn; [easy|].
  destruct (decide (x = h)); intros E.
  - now apply elem_of_cons; right.
  - apply elem_of_cons in E as [->|E]; [left | right; auto].
Qed.

Lemma elem_of_remove_first_ne (i h : nat) (l : list nat) :
  i <> h -> i ∈ l -> i ∈ remove_first h l.
Proof.
  intros N. induction l as [|x l IH]; cbn; [easy|].
  intros E. apply elem_of_cons in E as [->|E].
  - rewrite decide_False by exact N. left.
  - destruct (decide (x = h)); [exact E | right; auto].
Qed.

(** Taking the listeners of a topic off one by one leaves none. *)
Lemma remove_first_all (l : list nat) :
  foldl (fun acc h => remove_first h acc) l l = [].
Proof.
  induction l as [|x l IH]; [reflexivity|].
  cbn [foldl]. now rewrite remove_first_head.
Qed.

End RealtimeFacts.

(** ** The page *)

Section Page.
Import ItemList.
Context `{Host}.

(** *** One delivery *)

Lemma handler_realtime (h : nat) (data : option payload) (d : dialog)
    (rt : gmap string (list nat)) :
  (handler h data d rt).2 =
    if completes data then Realtime.off topic h rt else rt.
Proof.
  destruct data as [data|]; [|reflexivity]. now rewrite handler_payload.
Qed.

Lemma handler_messages_prefix (h : nat) (data : option payload) (d : dialog)
    (rt : gmap string (list nat)) :
  d.(messages) `prefix_of` (handler h data d rt).1.(messages).
Proof.
  destruct data as [data|]; [|reflexivity]. rewrite handler_payload.
  cbn [fst messages]. destruct (truthy _); [|reflexivity].
  now apply prefix_app_r.
Qed.

Lemma shows_here (j post : string) :
  exists pre post' : string, j +:+ post = pre +:+ j +:+ post'.
Proof. now exists "", post. Qed.

Lemma shows_later (a s j : string) :
  (exists pre post : string, s = pre +:+ j +:+ post) ->
  exists pre post : string, a +:+ s = pre +:+ j +:+ post.
Proof.
  intros (pre & post & ->). exists (a +:+ pre), post.
  now rewrite string_app_assoc.
Qed.

(** The template holds the joined messages, whatever else it is filled with. *)
Lemma html_template_shows (progress total : float) (current status : string)
    (pct : float) (messages : list string) :
  exists pre post : string,
    html_template progress total current status pct messages =
      pre +:+ join "<br>" messages +:+ post.
Proof.
  unfold html_template.
  repeat first [apply shows_here | apply shows_later].
Qed.

Lemma handler_shows (h : nat) (data : option payload) (d : dialog)
    (rt : gmap string (list nat)) :
  shows_messages d -> shows_messages (handler h data d rt).1.
Proof.
  destruct data as [data|]; [|easy]. intros _. rewrite handler_payload.
  unfold shows_messages. cbn [fst progress_html messages].
  apply html_template_shows.
Qed.

Lemma deliver_missing (data : option payload) (w : page) (h : nat) :
  w.(dialogs) !! h = None -> deliver data w h = w.
Proof. unfold deliver. now intros ->. Qed.

Lemma deliver_found (data : option payload) (w : page) (h : nat) (d : dialog) :
  w.(dialogs) !! h = Some d ->
  deliver data w h =
    Page (<[h := (handler h data d w.(realtime)).1]> w.(dialogs))
         (handler h data d w.(realtime)).2 w.(calls) w.(msgprints).
Proof.
  unfold deliver. intros ->. now destruct (handler h data d w.(realtime)).
Qed.

Lemma deliver_realtime (data : option payload) (w : page) (h : nat) (d : dialog) :
  w.(dialogs) !! h = Some d ->
  (deliver data w h).(realtime) =
    if completes data then Realtime.off topic h w.(realtime) else w.(realtime).
Proof.
  intros E. rewrite (deliver_found _ _ _ _ E). cbn [realtime].
  apply handler_realtime.
Qed.

Lemma deliver_length (data : option payload) (w : page) (h : nat) :
  length (deliver data w h).(dialogs) = length w.(dialogs).
Proof.
  destruct (w.(dialogs) !! h) as [d|] eqn:E.
  - rewrite (deliver_found _ _ _ _ E). cbn [dialogs]. apply length_insert.
  - now rewrite (deliver_missing _ _ _ E).
Qed.

Lemma deliver_listeners (data : option payload) (w : page) (h i : nat) :
  i ∈ Realtime.listeners topic (deliver data w h).(realtime) ->
  i ∈ Realtime.listeners topic w.(realtime).
Proof.
  destruct (w.(dialogs) !! h) as [d|] eqn:E.
  - rewrite (deliver_realtime _ _ _ _ E). destruct (completes data); [|easy].
    rewrite listeners_off. apply elem_of_remove_first.
  - now rewrite (deliver_missing _ _ _ E).
Qed.

(** Writing dialog [j] anew, with messages that extend those it had, keeps
    every dialog and only lengthens its messages. *)
Lemma insert_dialog (l : list dialog) (j i : nat) (dj d x : dialog) :
  l !! j = Some dj -> l !! i = Some d ->
  dj.(messages) `prefix_of` x.(messages) ->
  exists d' : dialog,
    <[j := x]> l !! i = Some d' /\ d.(messages) `prefix_of` d'.(messages).
Proof.
  intros Ej Ei P. destruct (decide (j = i)) as [->|N].
  - rewrite list_lookup_insert_eq by (eapply lookup_lt_Some; eauto).
    exists x. split; [reflexivity|]. rewrite Ei in Ej. now injection Ej as ->.
  - rewrite list_lookup_insert_ne by exact N. now exists d.
Qed.

(** A delivery keeps every dialog, and only lengthens its messages. *)
Lemma deliver_dialog (data : option payload) (w : page) (h i : nat) (d : dialog) :
  w.(dialogs) !! i = Some d ->
  exists d' : dialog,
    (deliver data w h).(dialogs) !! i = Some d'
    /\ d.(messages) `prefix_of` d'.(messages).
Proof.
  intros E. destruct (w.(dialogs) !! h) as [dh|] eqn:Eh.
  - rewrite (deliver_found _ _ _ _ Eh). cbn [dialogs].
    eapply insert_dialog; eauto. apply handler_messages_prefix.
  - rewrite (deliver_missing _ _ _ Eh). now exists d.
Qed.

Lemma deliver_shows (data : option payload) (w : page) (h : nat) :
  Forall shows_messages w.(dialogs) ->
  Forall shows_messages (deliver data w h).(dialogs).
Proof.
  intros F. destruct (w.(dialogs) !! h) as [d|] eqn:E.
  - rewrite (deliver_found _ _ _ _ E). cbn [dialogs].
    apply Forall_insert; [exact F|]. apply handler_shows.
    eapply Forall_lookup_1; eauto.
  - now rewrite (deliver_missing _ _ _ E).
Qed.

(** *** One published event *)

(** What every delivery preserves, the whole round of deliveries preserves. *)
Lemma foldl_deliver_ind (P : page -> Prop) (data : option payload) :
  (forall (w : page) (h : nat), P w -> P (deliver data w h)) ->
  forall (ls : list nat) (w : page), P w -> P (foldl (deliver data) w ls).
Proof.
  intros Hd ls. induction ls as [|h ls IH]; intros w Pw; cbn [foldl]; auto.
Qed.

(** An event that does not pass the test leaves the listener table alone. *)
Lemma emit_not_completes (t : string) (data : option payload) (w : page) :
  completes data = false -> (emit t data w).(realtime) = w.(realtime).
Proof.
  intros C. unfold emit. destruct (String.eqb t topic); [|reflexivity].
  apply (foldl_deliver_ind (fun w' => w'.(realtime) = w.(realtime)));
    [|reflexivity].
  intros w' h E. destruct (w'.(dialogs) !! h) as [d|] eqn:Eh.
  - rewrite (deliver_realtime _ _ _ _ Eh), C. exact E.
  - now rewrite (deliver_missing _ _ _ Eh).
Qed.

(** An event that passes the test takes every listener off. *)
Lemma foldl_deliver_completes (data : option payload) (ls : list nat) (w : page) :
  completes data = true ->
  (forall h : nat, h ∈ ls -> h < length w.(dialogs)) ->
  Realtime.listeners topic (foldl (deliver data) w ls).(realtime) =
    foldl (fun acc h => Realtime.remove_first h acc)
      (Realtime.listeners topic w.(realtime)) ls.
Proof.
  intros C. revert w. induction ls as [|h ls IH]; intros w B; [reflexivity|].
  cbn [foldl].
  destruct (lookup_lt_is_Some_2 w.(dialogs) h) as [d E];
    [apply B; left|].
  rewrite IH.
  - now rewrite (deliver_realtime _ _ _ _ E), C, listeners_off.
  - intros k Hk. rewrite deliver_length. apply B. now right.
Qed.

Lemma emit_completes (data : option payload) (w : page) :
  listeners_have_dialogs w -> completes data = true ->
  Realtime.listeners topic (emit topic data w).(realtime) = [].
Proof.
  intros W C. unfold emit. rewrite String.eqb_refl.
  rewrite (foldl_deliver_completes _ _ _ C); [apply remove_first_all|].
  exact W.
Qed.

(** *** Steps and runs *)

Lemma emit_dialog (t : string) (data : option payload) (w : page) (i : nat)
    (d : dialog) :
  w.(dialogs) !! i = Some d ->
  exists d' : dialog,
    (emit t data w).(dialogs) !! i = Some d'
    /\ d.(messages) `prefix_of` d'.(messages).
Proof.
  intros E. unfold emit. destruct (String.eqb t topic); [|now exists d].
  apply (foldl_deliver_ind (fun w' => exists d' : dialog,
    w'.(dialogs) !! i = Some d' /\ d.(messages) `prefix_of` d'.(messages)));
    [|now exists d].
  intros w' h (d1 & E1 & P1).
  destruct (deliver_dialog data w' h i d1 E1) as (d2 & E2 & P2).
  exists d2. split; [exact E2 | now transitivity d1.(messages)].
Qed.

(** No step takes a dialog away, or takes away or reorders its messages. *)
Lemma step_dialog (w : page) (e : event) (i : nat) (d : dialog) :
  w.(dialogs) !! i = Some d ->
  exists d' : dialog,
    (step w e).(dialogs) !! i = Some d'
    /\ d.(messages) `prefix_of` d'.(messages).
Proof.
  intros E. destruct e as [|j v|j| |t data|j]; cbn [step].
  - exists d. split; [|reflexivity]. unfold on_click. cbn [dialogs].
    now apply lookup_app_l_Some.
  - destruct (w.(dialogs) !! j) as [dj|] eqn:Ej; [|now exists d].
    cbn [dialogs]. eapply insert_dialog; eauto.
  - destruct (w.(dialogs) !! j); now exists d.
  - now exists d.
  - now apply emit_dialog.
  - destruct (w.(dialogs) !! j) as [dj|] eqn:Ej; [|now exists d].
    cbn [dialogs]. eapply insert_dialog; eauto.
Qed.

Lemma run_dialog (es : list event) (w : page) (i : nat) (d : dialog) :
  w.(dialogs) !! i = Some d ->
  exists d' : dialog,
    (run w es).(dialogs) !! i = Some d'
    /\ d.(messages) `prefix_of` d'.(messages).
Proof.
  revert w d. induction es as [|e es IH]; intros w d E; [now exists d|].
  destruct (step_dialog w e i d E) as (d1 & E1 & P1).
  destruct (IH (step w e) d1 E1) as (d2 & E2 & P2).
  exists d2. split; [exact E2 | now transitivity d1.(messages)].
Qed.

(** Every step keeps the progress documents in line with the messages. *)
Lemma step_shows (w : page) (e : event) :
  Forall shows_messages w.(dialogs) ->
  Forall shows_messages (step w e).(dialogs).
Proof.
  intros F. destruct e as [|j v|j| |t data|j]; cbn [step].
  - unfold on_click. cbn [dialogs]. apply Forall_app. split; [exact F|].
    apply Forall_singleton. now exists "", "".
  - destruct (w.(dialogs) !! j) as [dj|] eqn:Ej; [|exact F].
    cbn [dialogs]. apply Forall_insert; [exact F|].
    exact (Forall_lookup_1 _ _ _ _ F Ej).
  - now destruct (w.(dialogs) !! j).
  - exact F.
  - unfold emit. destruct (String.eqb t topic); [|exact F].
    apply (foldl_deliver_ind (fun w' => Forall shows_messages w'.(dialogs)));
      [|exact F].
    intros w' h. apply deliver_shows.
  - destruct (w.(dialogs) !! j) as [dj|] eqn:Ej; [|exact F].
    cbn [dialogs]. apply Forall_insert; [exact F|].
    exact (Forall_lookup_1 _ _ _ _ F Ej).
Qed.

Lemma run_shows (es : list event) (w : page) :
  Forall shows_messages w.(dialogs) ->
  Forall shows_messages (run w es).(dialogs).
Proof.
  revert w. induction es as [|e es IH]; intros w F; [exact F|].
  apply IH, step_shows, F.
Qed.

(** Every step keeps the listeners among the handlers of the dialogs. *)
Lemma step_listeners_have_dialogs (w : page) (e : event) :
  listeners_have_dialogs w -> listeners_have_dialogs (step w e).
Proof.
  intros W. destruct e as [|j v|j| |t data|j]; cbn [step].
  - intros i. unfold on_click. cbn [dialogs realtime].
    rewrite listeners_on, length_app. cbn [length].
    intros [E| ->%list_elem_of_singleton]%elem_of_app; [|lia].
    specialize (W i E). lia.
  - destruct (w.(dialogs) !! j); [|exact W].
    intros i. cbn [dialogs realtime]. rewrite length_insert. apply W.
  - now destruct (w.(dialogs) !! j).
  - exact W.
  - unfold emit. destruct (String.eqb t topic); [|exact W].
    apply (foldl_deliver_ind listeners_have_dialogs); [|exact W].
    intros w' h W' i E. rewrite deliver_length.
    apply W'. eapply deliver_listeners, E.
  - destruct (w.(dialogs) !! j); [|exact W].
    intros i. cbn [dialogs realtime]. rewrite length_insert.
    unfold onhide. rewrite listeners_off.
    intros E%elem_of_remove_first. now apply W.
Qed.

Lemma run_listeners_have_dialogs (es : list event) (w : page) :
  listeners_have_dialogs w -> listeners_have_dialogs (run w es).
Proof.
  revert w. induction es as [|e es IH]; intros w W; [exact W|].
  apply IH, step_listeners_have_dialogs, W.
Qed.

Lemma init_listeners_have_dialogs : listeners_have_dialogs init.
Proof. intros i E. cbn in E. now apply elem_of_nil in E. Qed.

End Page.

(** ** The batch-price dialog: the claims *)

Section Claims.
Import ItemList.
Context `{Host}.

Lemma absent_or_zero_default (v : option float) :
  absent_or_zero v -> v ||| 0%float = 0%float.
Proof.
  intros [->|(x & -> & E)]; [reflexivity|].
  unfold or_default. now rewrite (truthy_zero _ E).
Qed.

Lemma or_default_nonempty (s : string) : s <> "" -> Some s ||| "" = s.
Proof. intros N. unfold or_default. now rewrite (string_truthy_nonempty _ N). Qed.

Lemma status_done (v : option string) :
  String.eqb (v ||| "") "done" = true <-> v = Some "done".
Proof.
  split.
  - destruct v as [s|]; [|discriminate]. unfold or_default.
    destruct (truthy s); [|discriminate].
    now intros ->%String.eqb_eq.
  - now intros ->.
Qed.

(** The test that ends [handler], read on the fields of the event. *)
Lemma completes_iff (data : payload) :
  completes (Some data) = true <->
  data.(status) = Some "done"
  \/ ge (data.(progress) ||| 0%float) (data.(total) ||| 0%float) = true.
Proof. unfold completes. now rewrite orb_true_iff, status_done. Qed.

(** An event that passes the test makes the handler take itself off, and
    after such an event no handler of the page is left on the topic. *)
Lemma completing_event_deregisters (data : payload) :
  completes (Some data) = true ->
  (forall (h : nat) (d : dialog) (rt : gmap string (list nat)),
     (handler h (Some data) d rt).2 = Realtime.off topic h rt)
  /\ (forall es : list event,
        Realtime.listeners topic
          (step (run init es) (publish topic (Some data))).(realtime) = []).
Proof.
  intros C. split.
  - intros h d rt. now rewrite handler_realtime, C.
  - intros es. cbn [step]. apply emit_completes; [|exact C].
    apply run_listeners_have_dialogs, init_listeners_have_dialogs.
Qed.

(** C2, amended.  A step of the page takes the handler of dialog [i] off the
    progress topic only when the step is the closing of dialog [i], or the
    arrival on the topic of an event that passes the handler's own test:
    its status is ['done'], or its progress is at least its total, both
    defaulted to 0 when absent or falsy.  Opening another dialog, editing or
    submitting a dialog, the answer to a call, an event on another topic,
    an event without payload, the closing of another dialog and an event that
    fails the test all leave it registered. *)
Theorem listener_removed_only_by_test_or_hide (w : page) (e : event) (i : nat) :
  i ∈ Realtime.listeners topic w.(realtime) ->
  i ∉ Realtime.listeners topic (step w e).(realtime) ->
  e = hide i
  \/ exists data : payload,
       e = publish topic (Some data)
       /\ (data.(status) = Some "done"
           \/ ge (data.(progress) ||| 0%float) (data.(total) ||| 0%float) = true).
Proof.
  intros In Out. destruct e as [|j v|j| |t data|j]; cbn [step] in Out.
  - exfalso. apply Out. unfold on_click. cbn [realtime].
    rewrite listeners_on. apply elem_of_app. now left.
  - exfalso. apply Out. now destruct (w.(dialogs) !! j).
  - exfalso. apply Out. now destruct (w.(dialogs) !! j).
  - exfalso. now apply Out.
  - right. destruct (completes data) eqn:C.
    + destruct data as [data|]; [|discriminate]. exists data. split.
      * destruct (String.eqb_spec t topic) as [->|N]; [reflexivity|].
        exfalso. apply Out. unfold emit.
        now rewrite (proj2 (String.eqb_neq t topic) N).
      * now apply completes_iff.
    + exfalso. apply Out. now rewrite emit_not_completes.
  - left. destruct (decide (j = i)) as [->|N]; [reflexivity|].
    exfalso. apply Out. destruct (w.(dialogs) !! j); [|exact In].
    cbn [realtime]. unfold onhide. rewrite listeners_off.
    apply elem_of_remove_first_ne; [congruence | exact In].
Qed.

(** C3.  On every event whose status is ['done'] the handler calls
    [frappe.realtime.off] on itself; whatever happened on the page before,
    no handler is left on the progress topic once such an event has been
    processed. *)
Theorem done_event_deregisters (data : payload) :
  data.(status) = Some "done" ->
  (forall (h : nat) (d : dialog) (rt : gmap string (list nat)),
     (handler h (Some data) d rt).2 = Realtime.off topic h rt)
  /\ (forall es : list event,
        Realtime.listeners topic
          (step (run init es) (publish topic (Some data))).(realtime) = []).
Proof.
  intros S. apply completing_event_deregisters, completes_iff. now left.
Qed.

(** C9.  On every event whose progress and total are both absent or zero,
    whatever its status, the handler calls [frappe.realtime.off] on itself,
    and no handler is left on the progress topic afterwards: both fields
    default to 0 and [0 >= 0] holds. *)
Theorem event_without_counts_deregisters (data : payload) :
  absent_or_zero data.(total) ->
  absent_or_zero data.(progress) ->
  (forall (h : nat) (d : dialog) (rt : gmap string (list nat)),
     (handler h (Some data) d rt).2 = Realtime.off topic h rt)
  /\ (forall es : list event,
        Realtime.listeners topic
          (step (run init es) (publish topic (Some data))).(realtime) = []).
Proof.
  intros T P. apply completing_event_deregisters, completes_iff. right.
  now rewrite (absent_or_zero_default _ T), (absent_or_zero_default _ P).
Qed.

(** C4.  Pressing the primary button of a dialog whose [csv] value is a
    non-empty string adds exactly one remote call, to
    [batch_update_prices_from_csv] with that value as its [csv] argument;
    pressing it when the value is absent or empty adds none. *)
Theorem submission_calls (w : page) (i : nat) (d : dialog) :
  w.(dialogs) !! i = Some d ->
  (forall v : string, d.(csv) = Some v -> v <> "" ->
     (step w (click_start i)).(calls) =
       w.(calls) ++ [Call batch_update_prices_from_csv [("csv", v)] true])
  /\ (d.(csv) = None \/ d.(csv) = Some "" ->
      (step w (click_start i)).(calls) = w.(calls)).
Proof.
  intros E. cbn [step]. rewrite E. cbn [calls]. unfold primary_action. split.
  - intros v -> N. now rewrite (string_truthy_nonempty _ N).
  - now intros [->| ->].
Qed.

(** C7.  On every progress event the handler pushes one entry, built from
    the event's result and message, exactly when the message is a non-empty
    string, and leaves the array as it is when the message is absent or
    empty.  In both cases it writes the progress document anew: the fixed
    markup, with the event's progress and total (defaulted to 0), the
    escaped current item, the status, the percentage recomputed from progress
    and total (0 when the total is zero, [Math.round((progress / total) * 100)]
    otherwise) as the width of the bar, and the array as it now is, joined
    by [<br>]. *)
Theorem handler_appends_and_renders (h : nat) (data : payload) (d : dialog)
    (rt : gmap string (list nat)) :
  let total := data.(total) ||| 0%float in
  let progress := data.(progress) ||| 0%float in
  let percentage :=
    if PrimFloat.eqb total 0 then 0%float
    else Math_round ((progress / total) * 100)%float in
  let d' := (handler h (Some data) d rt).1 in
  (forall m : string, data.(message) = Some m -> m <> "" ->
     d'.(messages) =
       d.(messages) ++ [toUpperCase (data.(result) ||| "") +:+ ": "
                          +:+ escape_html m])
  /\ (data.(message) = None \/ data.(message) = Some "" ->
      d'.(messages) = d.(messages))
  /\ d'.(progress_html) =
       nl +:+ "+                    <div style=" +:+ dq +:+ "margin: 10px 0;" +:+ dq +:+ ">" +:+
       nl +:+ "+                        <div><strong>" +:+ Number_toString progress +:+ "/" +:+
              Number_toString total +:+ "</strong> — " +:+
              escape_html (data.(current) ||| "") +:+ " — " +:+
              (data.(status) ||| "") +:+ "</div>" +:+
       nl +:+ "+                        <div style=" +:+ dq +:+
              "background:#f1f1f1;border-radius:3px;height:10px;width:100%;margin-top:6px;" +:+
              dq +:+ ">" +:+
       nl +:+ "+                            <div style=" +:+ dq +:+ "width:" +:+
              Number_toString percentage +:+
              "%;background:#5b8ef8;height:100%;border-radius:3px" +:+
              dq +:+ "></div>" +:+
       nl +:+ "+                        </div>" +:+
       nl +:+ "+                        <div style=" +:+ dq +:+
              "margin-top:8px;max-height:200px;overflow:auto;padding:6px;background:#fff;border:1px solid #eee;border-radius:4px" +:+
              dq +:+ ">" +:+ join "<br>" d'.(messages) +:+ "</div>" +:+
       nl +:+ "+                    </div>".
Proof.
  intros total progress percentage d'. subst d'. rewrite handler_payload.
  cbn [fst messages progress_html]. repeat split.
  - intros m -> N.
    now rewrite (or_default_nonempty _ N), (string_truthy_nonempty _ N).
  - now intros [->| ->].
  - unfold html_template, pct. fold total progress.
    subst total. rewrite truthy_or_default_zero.
    subst percentage. now destruct (PrimFloat.eqb _ 0).
Qed.

(** C10.  In every state the page can reach, the progress document of each
    dialog holds all the messages of its array, in the order of the array,
    joined by [<br>]; and whatever happens next, the dialog is still there
    and the array it had is a prefix of the array it has: entries are only
    added at the end, none is taken away or moved. *)
Theorem messages_grow_and_are_shown (es es' : list event) (i : nat) (d : dialog) :
  (run init es).(dialogs) !! i = Some d ->
  shows_messages d
  /\ exists d' : dialog,
       (run (run init es) es').(dialogs) !! i = Some d'
       /\ d.(messages) `prefix_of` d'.(messages).
Proof.
  intros E. split.
  - eapply Forall_lookup_1; [|exact E]. apply run_shows. constructor.
  - now apply run_dialog.
Qed.

End Claims.

Lemma listener_removed_only_by_test_or_hide_witness :
  let w := ItemList.step (H := plain_host) ItemList.init
             ItemList.click_batch_update_price in
  let e := ItemList.publish ItemList.topic
             (Some (ItemList.Payload (Some 5%float) (Some 5%float) None
                      (Some "running") None None)) in
  e = ItemList.hide 0
  \/ exists data : ItemList.payload,
       e = ItemList.publish ItemList.topic (Some data)
       /\ (data.(ItemList.status) = Some "done"
           \/ ge (data.(ItemList.progress) ||| 0%float)
                 (data.(ItemList.total) ||| 0%float) = true).
Proof.
  intros w e.
  apply (listener_removed_only_by_test_or_hide (H := plain_host) w e 0).
  - vm_compute. left.
  - vm_compute. intros E. inversion E.
Defined.

(** C2 as stated fails.  Take "an explicit completion signal" to be an
    event that carries the status ['done'], or that carries both counts with
    the progress at least the total.  After one click on the button, the
    event [{message: 'x'}], which carries no status and no count, is no such
    signal and is not the closing of the dialog, yet it takes the handler of
    the dialog off the topic. *)
Lemma message_only_event_removes_listener :
  let w := ItemList.step (H := plain_host) ItemList.init
             ItemList.click_batch_update_price in
  let e := ItemList.publish ItemList.topic
             (Some (ItemList.Payload None None None None None (Some "x"))) in
  ~ (0 ∈ Realtime.listeners ItemList.topic w.(ItemList.realtime) ->
     0 ∉ Realtime.listeners ItemList.topic
           (ItemList.step (H := plain_host) w e).(ItemList.realtime) ->
     e = ItemList.hide 0
     \/ exists data : ItemList.payload,
          e = ItemList.publish ItemList.topic (Some data)
          /\ (data.(ItemList.status) = Some "done"
              \/ exists t p : float,
                   data.(ItemList.total) = Some t
                   /\ data.(ItemList.progress) = Some p
                   /\ ge p t = true)).
Proof.
  intros w e C.
  destruct C as [C|(data & E & [S|(t & p & T & _)])].
  - vm_compute. left.
  - vm_compute. intros E. inversion E.
  - discriminate C.
  - injection E as <-. discriminate S.
  - injection E as <-. discriminate T.
Qed.

Lemma done_event_deregisters_witness :
  Realtime.listeners ItemList.topic
    (ItemList.step (H := plain_host)
       (ItemList.run (H := plain_host) ItemList.init
          [ItemList.click_batch_update_price])
       (ItemList.publish ItemList.topic
          (Some (ItemList.Payload (Some 5%float) (Some 1%float) None
                   (Some "done") None None)))).(ItemList.realtime) = [].
Proof.
  apply (proj2 (done_event_deregisters (H := plain_host)
                  (ItemList.Payload (Some 5%float) (Some 1%float) None
                     (Some "done") None None) eq_refl)
           [ItemList.click_batch_update_price]).
Defined.

Lemma event_without_counts_deregisters_witness :
  Realtime.listeners ItemList.topic
    (ItemList.step (H := plain_host)
       (ItemList.run (H := plain_host) ItemList.init
          [ItemList.click_batch_update_price])
       (ItemList.publish ItemList.topic
          (Some (ItemList.Payload None (Some 0%float) None
                   (Some "running") None (Some "x"))))).(ItemList.realtime) = [].
Proof.
  apply (proj2 (event_without_counts_deregisters (H := plain_host)
                  (ItemList.Payload None (Some 0%float) None
                     (Some "running") None (Some "x"))
                  (or_introl eq_refl)
                  (or_intror (ex_intro _ 0%float (conj eq_refl eq_refl))))
           [ItemList.click_batch_update_price]).
Defined.

Lemma submission_calls_witness :
  (ItemList.step (H := plain_host)
     (ItemList.run (H := plain_host) ItemList.init
        [ItemList.click_batch_update_price;
         ItemList.input_csv 0 (Some "SKU-1,10")])
     (ItemList.click_start 0)).(ItemList.calls) =
    [Call ItemList.batch_update_prices_from_csv [("csv", "SKU-1,10")] true].
Proof.
  apply (proj1 (submission_calls (H := plain_host)
                  (ItemList.run (H := plain_host) ItemList.init
                     [ItemList.click_batch_update_price;
                      ItemList.input_csv 0 (Some "SKU-1,10")])
                  0 (ItemList.Dialog (Some "SKU-1,10") "" true []) eq_refl)
           "SKU-1,10" eq_refl).
  discriminate.
Defined.

Lemma handler_appends_and_renders_witness :
  (ItemList.handler (H := plain_host) 0
     (Some (ItemList.Payload (Some 4%float) (Some 1%float) (Some "SKU-1")
              (Some "running") (Some "ok") (Some "price set")))
     (ItemList.Dialog None "" true ["ok: first"]) ∅).1.(ItemList.messages) =
    ["ok: first"; "ok: price set"].
Proof.
  apply (proj1 (handler_appends_and_renders (H := plain_host) 0
                  (ItemList.Payload (Some 4%float) (Some 1%float) (Some "SKU-1")
                     (Some "running") (Some "ok") (Some "price set"))
                  (ItemList.Dialog None "" true ["ok: first"]) ∅)
           "price set" eq_refl).
  discriminate.
Defined.

Lemma messages_grow_and_are_shown_witness :
  let e1 := ItemList.publish ItemList.topic
              (Some (ItemList.Payload (Some 4%float) (Some 1%float) None None
                       (Some "ok") (Some "first"))) in
  let e2 := ItemList.publish ItemList.topic
              (Some (ItemList.Payload (Some 4%float) (Some 2%float) None None
                       (Some "ok") (Some "second"))) in
  let d := ItemList.Dialog None
             (ItemList.html_template (H := plain_host) 1 4 "" ""
                (ItemList.pct 4 1) ["ok: first"])
             true ["ok: first"] in
  shows_messages d
  /\ exists d' : ItemList.dialog,
       (ItemList.run (H := plain_host)
          (ItemList.run (H := plain_host) ItemList.init
             [ItemList.click_batch_update_price; e1]) [e2]).(ItemList.dialogs)
         !! 0 = Some d'
       /\ d.(ItemList.messages) `prefix_of` d'.(ItemList.messages).
Proof.
  intros e1 e2 d.
  apply (messages_grow_and_are_shown (H := plain_host)
           [ItemList.click_batch_update_price; e1] [e2] 0 d).
  vm_compute. reflexivity.
Defined.

(** ** The Sales Order form: the claims *)

Section SalesOrderClaims.
Import SalesOrder.

(** C5.  Giving [shopify_coupon_code] a non-empty value makes one remote
    call, the percent-value lookup of that code, and when the response comes
    with a message the callback writes its [percent_value] (0 when that is
    absent or falsy) to [additional_discount_percentage]; giving the field an
    absent or empty value makes no call and sets
    [additional_discount_percentage] to 0. *)
Theorem coupon_code_sets_discount (v : option string) (frm : form) :
  (forall code : string, v = Some code -> code <> "" ->
     (set_coupon_code v frm).(calls) =
       frm.(calls) ++ [Call get_shopify_coupon_code_percent_value
                         [("coupon_code", code)] false]
     /\ forall m : message,
          (callback (Response (Some m)) (set_coupon_code v frm))
            .(doc).(Doc.additional_discount_percentage) =
          m.(percent_value) ||| 0%float)
  /\ (v = None \/ v = Some "" ->
      (set_coupon_code v frm).(doc).(Doc.additional_discount_percentage) = 0%float
      /\ (set_coupon_code v frm).(calls) = frm.(calls)).
Proof.
  unfold set_coupon_code, shopify_coupon_code. cbn [doc Doc.shopify_coupon_code].
  split.
  - intros code -> N. rewrite (string_truthy_nonempty _ N). cbn [calls].
    split; reflexivity.
  - intros [->| ->]; split; reflexivity.
Qed.

(** C8.  A response whose message is absent or falsy leaves the form as it
    is, [additional_discount_percentage] included; a response with a message
    sets the field, to the message's [percent_value] when that is a truthy
    number and to 0 when it is absent, and changes nothing else. *)
Theorem callback_writes_only_on_message (r : response) (frm : form) :
  (r.(r_message) = None -> callback r frm = frm)
  /\ (forall m : message, r.(r_message) = Some m ->
        callback r frm =
          set_value_additional_discount_percentage
            (m.(percent_value) ||| 0%float) frm
        /\ (forall x : float, m.(percent_value) = Some x -> truthy x = true ->
              (callback r frm).(doc).(Doc.additional_discount_percentage) = x)
        /\ (m.(percent_value) = None ->
              (callback r frm).(doc).(Doc.additional_discount_percentage)
              = 0%float)).
Proof.
  unfold callback. split.
  - now intros ->.
  - intros m ->. split; [reflexivity|]. cbn. split.
    + intros x -> T. unfold or_default. now rewrite T.
    + now intros ->.
Qed.

End SalesOrderClaims.

Lemma coupon_code_sets_discount_witness :
  let frm := SalesOrder.Form (SalesOrder.Doc.Make None 3%float) ∅ [] in
  (SalesOrder.callback
     (SalesOrder.Response (Some (SalesOrder.Message (Some 15%float))))
     (SalesOrder.set_coupon_code (Some "SUMMER15") frm))
    .(SalesOrder.doc).(SalesOrder.Doc.additional_discount_percentage)
  = 15%float.
Proof.
  intros frm.
  apply (proj2 (proj1 (coupon_code_sets_discount (Some "SUMMER15") frm)
                  "SUMMER15" eq_refl ltac:(discriminate))
           (SalesOrder.Message (Some 15%float))).
Defined.

Lemma callback_writes_only_on_message_witness :
  let frm := SalesOrder.Form (SalesOrder.Doc.Make (Some "SUMMER15") 3%float) ∅ [] in
  SalesOrder.callback (SalesOrder.Response None) frm = frm.
Proof.
  intros frm.
  apply (proj1 (callback_writes_only_on_message (SalesOrder.Response None) frm)).
  reflexivity.
Defined.

(** ** The Shopify Coupon Code form: the claims *)

Section CouponCodeClaims.
Import ShopifyCouponCode.
Context `{Host}.

(** The callback reads the status: on ['success'] it confirms. *)
Lemma callback_success (r : response) (frm : form) (m : message) :
  r.(r_message) = Some m -> m.(status) = Some "success" ->
  (callback r frm).(msgprints) =
    frm.(msgprints) ++ [msg_text (__ "Coupon updated.")].
Proof.
  intros Em Es. unfold callback, succeeded. cbn [msgprints].
  now rewrite Em, Es.
Qed.

Lemma succeeded_iff (r : response) :
  succeeded r = true <->
  exists m : message, r.(r_message) = Some m /\ m.(status) = Some "success".
Proof.
  unfold succeeded. split.
  - destruct r.(r_message) as [m|]; [|discriminate].
    destruct m.(status) as [s|] eqn:Es; [|discriminate].
    intros ->%String.eqb_eq. now exists m.
  - now intros (m & -> & ->).
Qed.

(** C6.  For every response that does not carry a message with the status
    ['success'], the callback prints one error: title [Error], indicator
    [red].  Its text is the response's [error] when the message carries a
    non-empty one, and the translated [Failed to update coupons.] when the
    message, or its [error], is absent or empty. *)
Theorem failed_update_shows_error (r : response) (frm : form) :
  ~ (exists m : message,
       r.(r_message) = Some m /\ m.(status) = Some "success") ->
  exists text : string,
    (callback r frm).(msgprints) =
      frm.(msgprints) ++ [msg_opts (__ "Error") text "red"]
    /\ (forall (m : message) (e : string),
          r.(r_message) = Some m -> m.(error) = Some e -> e <> "" -> text = e)
    /\ (r.(r_message) = None
        \/ (exists m : message,
              r.(r_message) = Some m
              /\ (m.(error) = None \/ m.(error) = Some "")) ->
        text = __ "Failed to update coupons.").
Proof.
  intros F. exists (error_text r). unfold callback. cbn [msgprints].
  destruct (succeeded r) eqn:S; [now apply succeeded_iff in S|].
  split; [reflexivity|]. unfold error_text. split.
  - intros m e -> -> N. now rewrite (string_truthy_nonempty _ N).
  - intros [->|(m & -> & [->| ->])]; reflexivity.
Qed.

End CouponCodeClaims.

Lemma failed_update_shows_error_witness :
  let r := ShopifyCouponCode.Response
             (Some (ShopifyCouponCode.Message (Some "failed") None)) in
  let frm := ShopifyCouponCode.Form "SUMMER15" [] [] [] in
  exists text : string,
    (ShopifyCouponCode.callback (H := plain_host) r frm).(ShopifyCouponCode.msgprints) =
      [msg_opts "Error" text "red"]
    /\ (forall (m : ShopifyCouponCode.message) (e : string),
          r.(ShopifyCouponCode.r_message) = Some m ->
          m.(ShopifyCouponCode.error) = Some e -> e <> "" -> text = e)
    /\ (r.(ShopifyCouponCode.r_message) = None
        \/ (exists m : ShopifyCouponCode.message,
              r.(ShopifyCouponCode.r_message) = Some m
              /\ (m.(ShopifyCouponCode.error) = None
                  \/ m.(ShopifyCouponCode.error) = Some "")) ->
        text = "Failed to update coupons.").
Proof.
  intros r frm.
  apply (failed_update_shows_error (H := plain_host) r frm).
  intros (m & E & S). injection E as <-. discriminate S.
Defined.

(** * Further properties *)

(** ** Numbers, continued *)

(** Comparing the other way round gives the opposite answer. *)
Lemma SFcompare_antisym (a b : spec_float) :
  SFcompare b a = option_map CompOpp (SFcompare a b).
Proof.
  destruct a as [sa|sa| |sa ma ea], b as [sb|sb| |sb mb eb];
    try reflexivity; try (destruct sa; reflexivity);
    try (destruct sb; reflexivity); try (destruct sa, sb; reflexivity).
  cbn [SFcompare option_map]. f_equal.
  destruct sa, sb; try reflexivity;
    rewrite (Z.compare_antisym ea eb);
    destruct (ea ?= eb)%Z; cbn [CompOpp]; try reflexivity.
  - pose proof (Pos.compare_cont_antisym ma mb Eq) as A.
    cbn [CompOpp] in A. now rewrite <- A.
  - pose proof (Pos.compare_cont_antisym ma mb Eq) as A.
    cbn [CompOpp] in A. now rewrite <- A.
Qed.

(** [a < b] excludes [a >= b]. *)
Lemma ltb_not_ge (a b : float) : PrimFloat.ltb a b = true -> ge a b = false.
Proof.
  unfold ge. rewrite FloatAxioms.ltb_spec, FloatAxioms.leb_spec.
  unfold SFltb, SFleb. rewrite (SFcompare_antisym (Prim2SF a) (Prim2SF b)).
  destruct (SFcompare (Prim2SF a) (Prim2SF b)) as [[| |]|];
    try discriminate; reflexivity.
Qed.

(** A truthy number is finite and not zero, or infinite. *)
Lemma truthy_shape (x : float) :
  truthy x = true ->
  (exists s : bool, Prim2SF x = S754_infinity s)
  \/ (exists (s : bool) (m : positive) (e : Z), Prim2SF x = S754_finite s m e).
Proof.
  unfold truthy, float_truthy. rewrite eqb_zero_spec, is_nan_spec.
  destruct (Prim2SF x) as [s|s| |s m e]; try discriminate; eauto.
Qed.

Lemma Math_round_zero (x : float) (s : bool) :
  Prim2SF x = S754_zero s -> Math_round x = x.
Proof. unfold Math_round. now intros ->. Qed.

(** Nothing out of something is 0 percent, with the sign of the total. *)
Lemma pct_of_zero (total : float) :
  PrimFloat.eqb (ItemList.pct total 0) 0 = true.
Proof.
  unfold ItemList.pct. destruct (truthy total) eqn:T; [|reflexivity].
  assert (Z : exists s : bool, Prim2SF ((0 / total) * 100)%float = S754_zero s).
  { rewrite FloatAxioms.mul_spec, FloatAxioms.div_spec, Prim2SF_zero.
    destruct (truthy_shape _ T) as [(s & ->)|(s & m & e & ->)];
      destruct s; eexists; reflexivity. }
  destruct Z as (s & Z). rewrite (Math_round_zero _ _ Z), eqb_zero_spec, Z.
  reflexivity.
Qed.

(** ** The page, continued *)

Section Listeners.
Import Realtime.

Lemma NoDup_remove_first (h : nat) (l : list nat) :
  NoDup l -> NoDup (remove_first h l).
Proof.
  induction 1 as [|x l N D IH]; cbn; [constructor|].
  destruct (decide (x = h)); [exact D|].
  constructor; [|exact IH]. intros E. apply N. eapply elem_of_remove_first, E.
Qed.

Lemma not_elem_of_remove_first (h : nat) (l : list nat) :
  NoDup l -> h ∉ remove_first h l.
Proof.
  induction 1 as [|x l N D IH]; cbn; [apply not_elem_of_nil|].
  destruct (decide (x = h)) as [->|Ne]; [exact N|].
  intros [E|E]%elem_of_cons; [congruence | now apply IH].
Qed.

End Listeners.

Section MorePage.
Import ItemList.
Context `{Host}.

Lemma page_eta (w : page) :
  Page w.(dialogs) w.(realtime) w.(calls) w.(msgprints) = w.
Proof. now destruct w. Qed.

Lemma deliver_none (w : page) (h : nat) : deliver None w h = w.
Proof.
  destruct (w.(dialogs) !! h) as [d|] eqn:E.
  - rewrite (deliver_found _ _ _ _ E). cbn [handler fst snd].
    rewrite (list_insert_id _ _ _ E). apply page_eta.
  - apply (deliver_missing _ _ _ E).
Qed.

(** X1.  An event that arrives without payload is ignored: whatever the
    topic and however many handlers are registered, the page after it is
    the page before it. *)
Theorem publish_without_payload (w : page) (t : string) :
  step w (publish t None) = w.
Proof.
  cbn [step]. unfold emit. destruct (String.eqb t topic); [|reflexivity].
  apply (foldl_deliver_ind (fun w' => w' = w)); [|reflexivity].
  intros w' h ->. apply deliver_none.
Qed.

Lemma handler_keeps_fields (h : nat) (data : option payload) (d : dialog)
    (rt : gmap string (list nat)) :
  (handler h data d rt).1.(csv) = d.(csv)
  /\ (handler h data d rt).1.(shown) = d.(shown).
Proof.
  destruct data as [data|]; [|split; reflexivity].
  rewrite handler_payload. split; reflexivity.
Qed.

Lemma deliver_calls (data : option payload) (w : page) (h : nat) :
  (deliver data w h).(calls) = w.(calls)
  /\ (deliver data w h).(msgprints) = w.(msgprints).
Proof.
  destruct (w.(dialogs) !! h) as [d|] eqn:E.
  - rewrite (deliver_found _ _ _ _ E). split; reflexivity.
  - rewrite (deliver_missing _ _ _ E). split; reflexivity.
Qed.

Lemma deliver_fields (data : option payload) (w : page) (h i : nat) (d : dialog) :
  w.(dialogs) !! i = Some d ->
  exists d' : dialog,
    (deliver data w h).(dialogs) !! i = Some d'
    /\ d'.(csv) = d.(csv) /\ d'.(shown) = d.(shown).
Proof.
  intros E. destruct (w.(dialogs) !! h) as [dh|] eqn:Eh.
  - rewrite (deliver_found _ _ _ _ Eh). cbn [dialogs].
    destruct (decide (h = i)) as [->|N].
    + rewrite list_lookup_insert_eq by (eapply lookup_lt_Some; eauto).
      eexists. split; [reflexivity|]. rewrite E in Eh. injection Eh as <-.
      apply handler_keeps_fields.
    + rewrite list_lookup_insert_ne by exact N. now exists d.
  - rewrite (deliver_missing _ _ _ Eh). now exists d.
Qed.

(** X2.  A realtime event only touches what the handler renders: it makes
    no remote call and prints no message, it opens and drops no dialog, and
    it leaves the [csv] value and the visibility of every dialog alone. *)
Theorem publish_frame (w : page) (t : string) (data : option payload) :
  (step w (publish t data)).(calls) = w.(calls)
  /\ (step w (publish t data)).(msgprints) = w.(msgprints)
  /\ length (step w (publish t data)).(dialogs) = length w.(dialogs)
  /\ forall (i : nat) (d : dialog), w.(dialogs) !! i = Some d ->
       exists d' : dialog,
         (step w (publish t data)).(dialogs) !! i = Some d'
         /\ d'.(csv) = d.(csv) /\ d'.(shown) = d.(shown).
Proof.
  cbn [step]. unfold emit. destruct (String.eqb t topic).
  2:{ repeat split. intros i d E. now exists d. }
  apply (foldl_deliver_ind (fun w' =>
    w'.(calls) = w.(calls) /\ w'.(msgprints) = w.(msgprints)
    /\ length w'.(dialogs) = length w.(dialogs)
    /\ forall (i : nat) (d : dialog), w.(dialogs) !! i = Some d ->
         exists d' : dialog, w'.(dialogs) !! i = Some d'
           /\ d'.(csv) = d.(csv) /\ d'.(shown) = d.(shown))).
  - intros w' h (C & M & Len & D).
    destruct (deliver_calls data w' h) as [C' M'].
    rewrite C', M', deliver_length. repeat split; try assumption.
    intros i d E. destruct (D i d E) as (d1 & E1 & C1 & S1).
    destruct (deliver_fields data w' h i d1 E1) as (d2 & E2 & C2 & S2).
    exists d2. repeat split; [exact E2 | congruence | congruence].
  - repeat split. intros i d E. now exists d.
Qed.

(** X3.  An event that is not ['done'] and whose progress is below its
    total (both defaulted to 0) leaves the listener table as it is: every
    handler stays registered. *)
Theorem unfinished_event_keeps_listeners (w : page) (t : string) (data : payload) :
  data.(status) <> Some "done" ->
  PrimFloat.ltb (data.(progress) ||| 0%float) (data.(total) ||| 0%float) = true ->
  (step w (publish t (Some data))).(realtime) = w.(realtime).
Proof.
  intros S P. cbn [step]. apply emit_not_completes. unfold completes.
  rewrite (ltb_not_ge _ _ P), orb_false_r.
  destruct (String.eqb _ "done") eqn:E; [|reflexivity].
  now apply status_done in E.
Qed.

End MorePage.

Lemma unfinished_event_keeps_listeners_witness :
  let w := ItemList.run (H := plain_host) ItemList.init
             [ItemList.click_batch_update_price] in
  (ItemList.step (H := plain_host) w
     (ItemList.publish ItemList.topic
        (Some (ItemList.Payload (Some 4%float) (Some 1%float) (Some "SKU-1")
                 (Some "running") (Some "ok") (Some "price set")))))
    .(ItemList.realtime) = w.(ItemList.realtime).
Proof.
  intros w.
  apply (unfinished_event_keeps_listeners (H := plain_host) w ItemList.topic
           (ItemList.Payload (Some 4%float) (Some 1%float) (Some "SKU-1")
              (Some "running") (Some "ok") (Some "price set"))).
  - discriminate.
  - reflexivity.
Defined.

(** ** Registration: one handler per dialog *)

Section Registration.
Import ItemList.
Context `{Host}.

Lemma deliver_NoDup (data : option payload) (w : page) (h : nat) :
  NoDup (Realtime.listeners topic w.(realtime)) ->
  NoDup (Realtime.listeners topic (deliver data w h).(realtime)).
Proof.
  intros N. destruct (w.(dialogs) !! h) as [d|] eqn:E.
  - rewrite (deliver_realtime _ _ _ _ E). destruct (completes data); [|exact N].
    rewrite listeners_off. now apply NoDup_remove_first.
  - now rewrite (deliver_missing _ _ _ E).
Qed.

Lemma step_well_registered (w : page) (e : event) :
  well_registered w -> well_registered (step w e).
Proof.
  intros [N W]. split; [|now apply step_listeners_have_dialogs].
  destruct e as [|j v|j| |t data|j]; cbn [step].
  - unfold on_click. cbn [realtime]. rewrite listeners_on.
    apply NoDup_app. split; [exact N|]. split; [|apply NoDup_singleton].
    intros i E ->%list_elem_of_singleton. specialize (W _ E). lia.
  - now destruct (w.(dialogs) !! j).
  - now destruct (w.(dialogs) !! j).
  - exact N.
  - unfold emit. destruct (String.eqb t topic); [|exact N].
    apply (foldl_deliver_ind
             (fun w' => NoDup (Realtime.listeners topic w'.(realtime))));
      [|exact N].
    intros w' h. apply deliver_NoDup.
  - destruct (w.(dialogs) !! j); [|exact N]. cbn [realtime].
    unfold onhide. rewrite listeners_off. now apply NoDup_remove_first.
Qed.

Lemma run_well_registered (es : list event) (w : page) :
  well_registered w -> well_registered (run w es).
Proof.
  revert w. induction es as [|e es IH]; intros w W; [exact W|].
  apply IH, step_well_registered, W.
Qed.

Lemma init_well_registered : well_registered init.
Proof. split; [constructor | apply init_listeners_have_dialogs]. Qed.

(** X4.  In every state the page can reach, the handlers registered on the
    progress topic are pairwise distinct and each one is the handler of a
    dialog that was opened.  A click on the button in such a state opens one
    more dialog, shown, with no [csv] value, an empty progress document and
    no messages, and registers its handler, which was not registered
    before, after the others: no dialog is ever registered twice. *)
Theorem reachable_well_registered (es : list event) :
  let w := run init es in
  let w' := step w click_batch_update_price in
  NoDup (Realtime.listeners topic w.(realtime))
  /\ (forall i : nat,
        i ∈ Realtime.listeners topic w.(realtime) -> i < length w.(dialogs))
  /\ (length w.(dialogs) ∉ Realtime.listeners topic w.(realtime))
  /\ Realtime.listeners topic w'.(realtime) =
       Realtime.listeners topic w.(realtime) ++ [length w.(dialogs)]
  /\ w'.(dialogs) = w.(dialogs) ++ [Dialog None "" true []]
  /\ NoDup (Realtime.listeners topic w'.(realtime)).
Proof.
  intros w w'.
  destruct (run_well_registered es init init_well_registered) as [N W].
  fold w in N, W. split; [exact N|]. split; [exact W|].
  split; [intros In; specialize (W _ In); lia|].
  subst w'. cbn [step]. unfold on_click. cbn [realtime dialogs].
  rewrite listeners_on. split; [reflexivity|]. split; [reflexivity|].
  apply NoDup_app. split; [exact N|]. split; [|apply NoDup_singleton].
  intros i In ->%list_elem_of_singleton. specialize (W _ In). lia.
Qed.

(** X5.  Closing a dialog takes its handler off the progress topic, marks
    the dialog as hidden and keeps its [csv] value, its progress document and
    its messages. *)
Theorem hide_deregisters (es : list event) (i : nat) (d : dialog) :
  (run init es).(dialogs) !! i = Some d ->
  (i ∉ Realtime.listeners topic (step (run init es) (hide i)).(realtime))
  /\ (step (run init es) (hide i)).(dialogs) !! i =
       Some (Dialog d.(csv) d.(progress_html) false d.(messages)).
Proof.
  intros E. cbn [step]. rewrite E. cbn [realtime dialogs]. split.
  - unfold onhide. rewrite listeners_off. apply not_elem_of_remove_first.
    apply (run_well_registered es init init_well_registered).
  - apply list_lookup_insert_eq. eapply lookup_lt_Some, E.
Qed.

End Registration.

Lemma hide_deregisters_witness :
  let es := [ItemList.click_batch_update_price;
             ItemList.input_csv 0 (Some "SKU-1,10")] in
  (0 ∉ Realtime.listeners ItemList.topic
         (ItemList.step (H := plain_host)
            (ItemList.run (H := plain_host) ItemList.init es)
            (ItemList.hide 0)).(ItemList.realtime))
  /\ (ItemList.step (H := plain_host)
        (ItemList.run (H := plain_host) ItemList.init es)
        (ItemList.hide 0)).(ItemList.dialogs)
       !! 0 = Some (ItemList.Dialog (Some "SKU-1,10") "" false []).
Proof.
  intros es.
  apply (hide_deregisters (H := plain_host) es 0
           (ItemList.Dialog (Some "SKU-1,10") "" true [])).
  reflexivity.
Defined.

(** ** A dialog without handler *)

Section Frozen.
Import ItemList.
Context `{Host}.

Lemma deliver_other (data : option payload) (w : page) (h i : nat) :
  h <> i -> (deliver data w h).(dialogs) !! i = w.(dialogs) !! i.
Proof.
  intros N. destruct (w.(dialogs) !! h) as [d|] eqn:E.
  - rewrite (deliver_found _ _ _ _ E). cbn [dialogs].
    now apply list_lookup_insert_ne.
  - now rewrite (deliver_missing _ _ _ E).
Qed.

Lemma foldl_deliver_other (data : option payload) (ls : list nat) (w : page)
    (i : nat) :
  i ∉ ls -> (foldl (deliver data) w ls).(dialogs) !! i = w.(dialogs) !! i.
Proof.
  revert w. induction ls as [|h ls IH]; intros w N; [reflexivity|].
  cbn [foldl]. apply not_elem_of_cons in N as [N1 N2].
  rewrite IH by exact N2. apply deliver_other. congruence.
Qed.

Lemma emit_listeners (t : string) (data : option payload) (w : page) (i : nat) :
  i ∈ Realtime.listeners topic (emit t data w).(realtime) ->
  i ∈ Realtime.listeners topic w.(realtime).
Proof.
  unfold emit. destruct (String.eqb t topic); [|easy].
  apply (foldl_deliver_ind (fun w' =>
    i ∈ Realtime.listeners topic w'.(realtime) ->
    i ∈ Realtime.listeners topic w.(realtime))); [|easy].
  intros w' h IH E. eapply IH, deliver_listeners, E.
Qed.

(** One step on a dialog whose handler is off the topic. *)
Lemma step_frozen (w : page) (e : event) (i : nat) (d : dialog) :
  w.(dialogs) !! i = Some d ->
  i ∉ Realtime.listeners topic w.(realtime) ->
  (exists d' : dialog,
     (step w e).(dialogs) !! i = Some d'
     /\ d'.(messages) = d.(messages)
     /\ d'.(progress_html) = d.(progress_html))
  /\ i ∉ Realtime.listeners topic (step w e).(realtime).
Proof.
  intros E Out. pose proof (lookup_lt_Some _ _ _ E) as Lt.
  destruct e as [|j v|j| |t data|j]; cbn [step].
  - split.
    + exists d. unfold on_click. cbn [dialogs].
      now rewrite (lookup_app_l_Some _ _ _ _ E).
    + unfold on_click. cbn [realtime]. rewrite listeners_on.
      intros [In| ->%list_elem_of_singleton]%elem_of_app; [now apply Out | lia].
  - destruct (w.(dialogs) !! j) as [dj|] eqn:Ej; [|split; [now exists d | exact Out]].
    split; [|exact Out]. cbn [dialogs].
    destruct (decide (j = i)) as [->|N].
    + rewrite list_lookup_insert_eq by exact Lt. eexists. split; [reflexivity|].
      rewrite E in Ej. now injection Ej as <-.
    + rewrite list_lookup_insert_ne by exact N. now exists d.
  - destruct (w.(dialogs) !! j); (split; [now exists d | exact Out]).
  - split; [now exists d | exact Out].
  - split.
    + exists d. split; [|split; reflexivity]. unfold emit.
      destruct (String.eqb t topic); [|exact E].
      now rewrite foldl_deliver_other.
    + intros In. now apply Out, (emit_listeners t data).
  - destruct (w.(dialogs) !! j) as [dj|] eqn:Ej; [|split; [now exists d | exact Out]].
    split.
    + cbn [dialogs]. destruct (decide (j = i)) as [->|N].
      * rewrite list_lookup_insert_eq by exact Lt. eexists. split; [reflexivity|].
        rewrite E in Ej. now injection Ej as <-.
      * rewrite list_lookup_insert_ne by exact N. now exists d.
    + cbn [realtime]. unfold onhide. rewrite listeners_off.
      intros In%elem_of_remove_first. now apply Out.
Qed.

(** X6.  Once the handler of a dialog is off the progress topic, it stays
    off, and nothing that happens later changes the dialog's messages or its
    progress document: the display is frozen. *)
Theorem deregistered_dialog_is_frozen (es : list event) (w : page) (i : nat)
    (d : dialog) :
  w.(dialogs) !! i = Some d ->
  i ∉ Realtime.listeners topic w.(realtime) ->
  (exists d' : dialog,
     (run w es).(dialogs) !! i = Some d'
     /\ d'.(messages) = d.(messages)
     /\ d'.(progress_html) = d.(progress_html))
  /\ i ∉ Realtime.listeners topic (run w es).(realtime).
Proof.
  revert w d. induction es as [|e es IH]; intros w d E Out.
  - split; [now exists d | exact Out].
  - destruct (step_frozen w e i d E Out) as [(d1 & E1 & M1 & P1) Out1].
    destruct (IH (step w e) d1 E1 Out1) as [(d2 & E2 & M2 & P2) Out2].
    split; [|exact Out2]. exists d2. repeat split; [exact E2 | congruence..].
Qed.

End Frozen.

Lemma deregistered_dialog_is_frozen_witness :
  let w := ItemList.run (H := plain_host) ItemList.init
             [ItemList.click_batch_update_price; ItemList.hide 0] in
  let es := [ItemList.publish ItemList.topic
               (Some (ItemList.Payload (Some 4%float) (Some 1%float) None None
                        (Some "ok") (Some "late")))] in
  (exists d' : ItemList.dialog,
     (ItemList.run (H := plain_host) w es).(ItemList.dialogs) !! 0 = Some d'
     /\ d'.(ItemList.messages) = []
     /\ d'.(ItemList.progress_html) = "")
  /\ 0 ∉ Realtime.listeners ItemList.topic
           (ItemList.run (H := plain_host) w es).(ItemList.realtime).
Proof.
  intros w es.
  apply (deregistered_dialog_is_frozen (H := plain_host) es w 0
           (ItemList.Dialog None "" false [])).
  - reflexivity.
  - vm_compute. intros E. inversion E.
Defined.

(** ** Several dialogs, several submissions *)

Section Dialogs.
Import ItemList.
Context `{Host}.

(** X7.  An event with a payload reaches every dialog whose handler is
    registered exactly once, however many dialogs are open: the dialog gets
    one new entry when the message is a non-empty string and none otherwise,
    and its progress document is the template filled from this event and
    from the dialog's own messages. *)
Theorem event_reaches_each_dialog_once (es : list event) (data : payload)
    (i : nat) (d : dialog) :
  (run init es).(dialogs) !! i = Some d ->
  i ∈ Realtime.listeners topic (run init es).(realtime) ->
  let total := data.(total) ||| 0%float in
  let progress := data.(progress) ||| 0%float in
  let entries :=
    if truthy (data.(message) ||| "")
    then d.(messages) ++ [toUpperCase (data.(result) ||| "") +:+ ": "
                            +:+ escape_html (data.(message) ||| "")]
    else d.(messages) in
  (step (run init es) (publish topic (Some data))).(dialogs) !! i =
    Some (Dialog d.(csv)
            (html_template progress total (data.(current) ||| "")
               (data.(status) ||| "") (pct total progress) entries)
            d.(shown) entries).
Proof.
  intros E In total progress entries. cbn [step]. unfold emit.
  rewrite String.eqb_refl.
  destruct (run_well_registered es init init_well_registered) as [N _].
  destruct (list_elem_of_split _ _ In) as (l1 & l2 & Split).
  rewrite Split in N |- *.
  apply NoDup_app in N as (_ & N1 & N2). apply NoDup_cons in N2 as [N2 _].
  rewrite foldl_app. cbn [foldl]. rewrite foldl_deliver_other by exact N2.
  assert (E1 : (foldl (deliver (Some data)) (run init es) l1).(dialogs) !! i
               = Some d).
  { rewrite foldl_deliver_other; [exact E|]. intros In1. apply (N1 i In1). left. }
  rewrite (deliver_found _ _ _ _ E1). cbn [dialogs].
  rewrite list_lookup_insert_eq by (eapply lookup_lt_Some, E1).
  now rewrite handler_payload.
Qed.

Lemma run_click_start (n : nat) (w : page) (i : nat) :
  (run w (replicate n (click_start i))).(dialogs) = w.(dialogs).
Proof.
  revert w. induction n as [|n IH]; intros w; [reflexivity|].
  cbn [replicate run foldl]. fold (run (step w (click_start i))
                                       (replicate n (click_start i))).
  rewrite IH. cbn [step]. now destruct (w.(dialogs) !! i).
Qed.

(** X8.  Nothing guards against a repeated submission: pressing the primary
    button [n] times on a dialog whose [csv] value is a non-empty string
    makes [n] remote calls, all alike. *)
Theorem repeated_submission_calls (n : nat) (w : page) (i : nat) (d : dialog)
    (v : string) :
  w.(dialogs) !! i = Some d -> d.(csv) = Some v -> v <> "" ->
  (run w (replicate n (click_start i))).(calls) =
    w.(calls) ++ replicate n (Call batch_update_prices_from_csv [("csv", v)] true).
Proof.
  intros E C N. revert w E. induction n as [|n IH]; intros w E.
  - cbn. now rewrite app_nil_r.
  - cbn [replicate run foldl].
    fold (run (step w (click_start i)) (replicate n (click_start i))).
    assert (S1 : step w (click_start i) =
                 Page w.(dialogs) w.(realtime)
                   (w.(calls) ++ [Call batch_update_prices_from_csv [("csv", v)] true])
                   w.(msgprints)).
    { cbn [step]. rewrite E. unfold primary_action.
      now rewrite C, (string_truthy_nonempty _ N). }
    rewrite S1, IH by exact E. cbn [calls]. now rewrite <- app_assoc.
Qed.

(** *** What the messages are made of *)

Lemma handler_built (h : nat) (data : option payload) (d : dialog)
    (rt : gmap string (list nat)) :
  Forall built_entry d.(messages) ->
  Forall built_entry (handler h data d rt).1.(messages).
Proof.
  intros F. destruct data as [data|]; [|exact F]. rewrite handler_payload.
  cbn [fst messages]. destruct (truthy _) eqn:T; [|exact F].
  apply Forall_app. split; [exact F|]. apply Forall_singleton.
  exists (data.(result) ||| ""), (data.(message) ||| ""). split; [|reflexivity].
  intros Em. rewrite Em in T. discriminate T.
Qed.

Lemma step_built (w : page) (e : event) :
  Forall (fun d => Forall built_entry d.(messages)) w.(dialogs) ->
  Forall (fun d => Forall built_entry d.(messages)) (step w e).(dialogs).
Proof.
  intros F. destruct e as [|j v|j| |t data|j]; cbn [step].
  - unfold on_click. cbn [dialogs]. apply Forall_app. split; [exact F|].
    apply Forall_singleton. constructor.
  - destruct (w.(dialogs) !! j) as [dj|] eqn:Ej; [|exact F].
    cbn [dialogs]. apply Forall_insert; [exact F|].
    exact (Forall_lookup_1 _ _ _ _ F Ej).
  - now destruct (w.(dialogs) !! j).
  - exact F.
  - unfold emit. destruct (String.eqb t topic); [|exact F].
    apply (foldl_deliver_ind (fun w' =>
      Forall (fun d => Forall built_entry d.(messages)) w'.(dialogs)));
      [|exact F].
    intros w' h F'. destruct (w'.(dialogs) !! h) as [d|] eqn:E.
    + rewrite (deliver_found _ _ _ _ E). cbn [dialogs].
      apply Forall_insert; [exact F'|]. apply handler_built.
      exact (Forall_lookup_1 _ _ _ _ F' E).
    + now rewrite (deliver_missing _ _ _ E).
  - destruct (w.(dialogs) !! j) as [dj|] eqn:Ej; [|exact F].
    cbn [dialogs]. apply Forall_insert; [exact F|].
    exact (Forall_lookup_1 _ _ _ _ F Ej).
Qed.

Lemma run_built (es : list event) (w : page) :
  Forall (fun d => Forall built_entry d.(messages)) w.(dialogs) ->
  Forall (fun d => Forall built_entry d.(messages)) (run w es).(dialogs).
Proof.
  revert w. induction es as [|e es IH]; intros w F; [exact F|].
  apply IH, step_built, F.
Qed.

(** X9.  In every state the page can reach, every entry of every dialog's
    messages was built by the handler from a non-empty message: the result in
    upper case, [": "], and the message passed through [escape_html].  No
    message text enters the list unescaped, and no empty message enters it. *)
Theorem messages_are_built_entries (es : list event) (i : nat) (d : dialog) :
  (run init es).(dialogs) !! i = Some d ->
  Forall built_entry d.(messages).
Proof.
  intros E. refine (Forall_lookup_1 _ _ _ _ (run_built es init _) E).
  constructor.
Qed.

(** X10.  An event whose progress is absent, zero or [NaN] is shown as 0
    percent, whatever its total: the percentage is a zero (of either sign,
    which the template prints alike). *)
Theorem no_progress_is_zero_percent (data : payload) :
  is_truthy data.(progress) = false ->
  PrimFloat.eqb
    (pct (data.(total) ||| 0%float) (data.(progress) ||| 0%float)) 0 = true.
Proof. intros P. rewrite (or_default_falsy _ P). apply pct_of_zero. Qed.

End Dialogs.

Lemma event_reaches_each_dialog_once_witness :
  (ItemList.step (H := plain_host)
     (ItemList.run (H := plain_host) ItemList.init
        [ItemList.click_batch_update_price; ItemList.click_batch_update_price])
     (ItemList.publish ItemList.topic
        (Some (ItemList.Payload (Some 4%float) (Some 1%float) (Some "SKU-1")
                 (Some "running") (Some "ok") (Some "price set")))))
    .(ItemList.dialogs) !! 1 =
  Some (ItemList.Dialog None
          (ItemList.html_template (H := plain_host) 1 4 "SKU-1" "running"
             (ItemList.pct 4 1) ["ok: price set"])
          true ["ok: price set"]).
Proof.
  apply (event_reaches_each_dialog_once (H := plain_host)
           [ItemList.click_batch_update_price; ItemList.click_batch_update_price]
           (ItemList.Payload (Some 4%float) (Some 1%float) (Some "SKU-1")
              (Some "running") (Some "ok") (Some "price set"))
           1 (ItemList.Dialog None "" true [])).
  - reflexivity.
  - vm_compute. right. left.
Defined.

Lemma repeated_submission_calls_witness :
  let w := ItemList.run (H := plain_host) ItemList.init
             [ItemList.click_batch_update_price;
              ItemList.input_csv 0 (Some "SKU-1,10")] in
  (ItemList.run (H := plain_host) w
     (replicate 2 (ItemList.click_start 0))).(ItemList.calls) =
    w.(ItemList.calls)
    ++ replicate 2 (Call ItemList.batch_update_prices_from_csv
                      [("csv", "SKU-1,10")] true).
Proof.
  intros w.
  apply (repeated_submission_calls (H := plain_host) 2 w 0
           (ItemList.Dialog (Some "SKU-1,10") "" true []) "SKU-1,10").
  - reflexivity.
  - reflexivity.
  - discriminate.
Defined.

Lemma messages_are_built_entries_witness :
  Forall (built_entry (H := plain_host)) ["ok: first"].
Proof.
  apply (messages_are_built_entries (H := plain_host)
           [ItemList.click_batch_update_price;
            ItemList.publish ItemList.topic
              (Some (ItemList.Payload (Some 4%float) (Some 1%float) None None
                       (Some "ok") (Some "first")))]
           0
           (ItemList.Dialog None
              (ItemList.html_template (H := plain_host) 1 4 "" ""
                 (ItemList.pct 4 1) ["ok: first"])
              true ["ok: first"])).
  vm_compute. reflexivity.
Defined.

Lemma no_progress_is_zero_percent_witness :
  PrimFloat.eqb (ItemList.pct 4 0) 0 = true.
Proof.
  apply (no_progress_is_zero_percent
           (ItemList.Payload (Some 4%float) None None None None None)).
  reflexivity.
Defined.

(** ** The Sales Order form, continued *)

Section SalesOrderMore.
Import SalesOrder.

(** X11.  [onload] restricts the link field [shopify_coupon_code] to
    documents whose status is [Active], leaves the queries of the other
    fields, the document and the calls alone, and running it again changes
    nothing more. *)
Theorem onload_sets_active_filter (frm : form) :
  (onload frm).(queries) !! "shopify_coupon_code" = Some [("status", "Active")]
  /\ (forall f : string, f <> "shopify_coupon_code" ->
        (onload frm).(queries) !! f = frm.(queries) !! f)
  /\ onload (onload frm) = onload frm
  /\ (onload frm).(doc) = frm.(doc)
  /\ (onload frm).(calls) = frm.(calls).
Proof.
  unfold onload. cbn [queries doc calls]. repeat split.
  - apply lookup_insert_eq.
  - intros f N. apply lookup_insert_ne. congruence.
  - now rewrite insert_insert_eq.
Qed.

(** X12.  The lookup is not tied to the value that started it.  Giving the
    field a non-empty code makes the call and leaves the discount as it was;
    clearing the field then sets the discount to 0; and when the response of
    the earlier call arrives after that, the callback still writes its
    [percent_value] (or 0), although the coupon code is empty. *)
Theorem late_response_overwrites_cleared_discount (frm : form) (code : string)
    (m : message) :
  code <> "" ->
  let f1 := set_coupon_code (Some code) frm in
  let f2 := set_coupon_code None f1 in
  let f3 := callback (Response (Some m)) f2 in
  f1.(doc).(Doc.additional_discount_percentage) =
    frm.(doc).(Doc.additional_discount_percentage)
  /\ f2.(doc).(Doc.additional_discount_percentage) = 0%float
  /\ f2.(calls) =
       frm.(calls) ++ [Call get_shopify_coupon_code_percent_value
                         [("coupon_code", code)] false]
  /\ f3.(doc).(Doc.shopify_coupon_code) = None
  /\ f3.(doc).(Doc.additional_discount_percentage) = m.(percent_value) ||| 0%float.
Proof.
  intros N f1 f2 f3. subst f1 f2 f3.
  unfold set_coupon_code, shopify_coupon_code.
  cbn [doc Doc.shopify_coupon_code].
  rewrite (string_truthy_nonempty _ N). repeat split.
Qed.

(** X13.  The discount the callback writes is never [NaN]: a
    [percent_value] that is [NaN] or zero is written as 0. *)
Theorem written_discount_is_a_number (m : message) (frm : form) :
  PrimFloat.is_nan
    (callback (Response (Some m)) frm).(doc).(Doc.additional_discount_percentage)
  = false
  /\ (forall p : float, m.(percent_value) = Some p -> truthy p = false ->
        (callback (Response (Some m)) frm).(doc).(Doc.additional_discount_percentage)
        = 0%float).
Proof.
  unfold callback. cbn. split.
  - apply or_default_zero_not_nan.
  - intros p -> T. unfold or_default. now rewrite T.
Qed.

End SalesOrderMore.

Lemma late_response_overwrites_cleared_discount_witness :
  let frm := SalesOrder.Form (SalesOrder.Doc.Make None 3%float) ∅ [] in
  let f2 := SalesOrder.set_coupon_code None
              (SalesOrder.set_coupon_code (Some "SUMMER15") frm) in
  let f3 := SalesOrder.callback
              (SalesOrder.Response (Some (SalesOrder.Message (Some 15%float))))
              f2 in
  f3.(SalesOrder.doc).(SalesOrder.Doc.shopify_coupon_code) = None
  /\ f3.(SalesOrder.doc).(SalesOrder.Doc.additional_discount_percentage)
     = 15%float.
Proof.
  intros frm f2 f3.
  apply (proj2 (proj2 (proj2
    (late_response_overwrites_cleared_discount frm "SUMMER15"
       (SalesOrder.Message (Some 15%float)) ltac:(discriminate))))).
Defined.

Lemma written_discount_is_a_number_witness :
  (SalesOrder.callback
     (SalesOrder.Response (Some (SalesOrder.Message (Some PrimFloat.nan))))
     (SalesOrder.Form (SalesOrder.Doc.Make (Some "SUMMER15") 3%float) ∅ []))
    .(SalesOrder.doc).(SalesOrder.Doc.additional_discount_percentage) = 0%float.
Proof.
  apply (proj2 (written_discount_is_a_number
                  (SalesOrder.Message (Some PrimFloat.nan))
                  (SalesOrder.Form (SalesOrder.Doc.Make (Some "SUMMER15") 3%float) ∅ []))
           PrimFloat.nan eq_refl eq_refl).
Defined.

(** ** The Shopify Coupon Code form, continued *)

Section CouponCodeMore.
Import ShopifyCouponCode.
Context `{Host}.

(** X14.  Every response gets exactly one message, a plain confirmation or
    a red error and never both, and the callback touches nothing else of the
    form.  A message with the status ['success'] gets the confirmation even
    when it also carries an error text. *)
Theorem every_response_prints_once (r : response) (frm : form) :
  (exists a : msgprint_arg,
     (callback r frm).(msgprints) = frm.(msgprints) ++ [a]
     /\ (a = msg_text (__ "Coupon updated.")
         \/ exists text : string, a = msg_opts (__ "Error") text "red"))
  /\ (callback r frm).(calls) = frm.(calls)
  /\ (callback r frm).(custom_buttons) = frm.(custom_buttons)
  /\ (callback r frm).(name) = frm.(name)
  /\ (forall (m : message) (e : string),
        r.(r_message) = Some m -> m.(status) = Some "success" ->
        m.(error) = Some e ->
        (callback r frm).(msgprints) =
          frm.(msgprints) ++ [msg_text (__ "Coupon updated.")]).
Proof.
  repeat split.
  - unfold callback. cbn [msgprints]. eexists. split; [reflexivity|].
    destruct (succeeded r); [now left | right; eauto].
  - intros m e Em Es _. now apply (callback_success r frm m).
Qed.

End CouponCodeMore.

Lemma every_response_prints_once_witness :
  let r := ShopifyCouponCode.Response
             (Some (ShopifyCouponCode.Message (Some "success") (Some "stale"))) in
  (ShopifyCouponCode.callback (H := plain_host) r
     (ShopifyCouponCode.Form "SUMMER15" [] [] [])).(ShopifyCouponCode.msgprints)
  = [msg_text "Coupon updated."].
Proof.
  intros r.
  apply (proj2 (proj2 (proj2 (proj2
    (every_response_prints_once (H := plain_host) r
       (ShopifyCouponCode.Form "SUMMER15" [] [] [])))))
    (ShopifyCouponCode.Message (Some "success") (Some "stale")) "stale"
    eq_refl eq_refl eq_refl).
Defined.
